(** * epublib.reader: a shallow embedding and its verified properties

    The development follows [epublib/reader.py].  Python values are
    modelled as follows.

    - [bytes] / [bytearray] : [list byte];
    - [str]                 : [string], holding the UTF-8 encoding of the
                              text (so [decode] is UTF-8 validation and
                              [encode] is the identity on the bytes);
    - [dict]                : an association list in insertion order with
                              pairwise distinct keys ([for path in files]
                              walks it in that order);
    - raised exceptions     : the [Raise] branch of [result];
    - an lxml element tree  : [element], a tag in Clark notation
                              ([{namespace}local]), the attribute list
                              and the children in document order.

    The three collaborators the reader calls are taken as they come:
    [stream_unzip] has already produced its entries (a [list entry]),
    the lxml parser is the section variable [fromstring] and
    [html2text.html2text] is the section variable [html2text]. *)

From Stdlib Require Import List ZArith NArith Bool Lia.
From Stdlib.Strings Require Import String Ascii Byte.
Import ListNotations.

Local Open Scope list_scope.
Local Open Scope string_scope.
Local Set Warnings "-register-all".

(** ** Exceptions and the result monad *)

Inductive exception : Type :=
| MalformedEpubException (msg : string)
| KeyError (key : string)
| IndexError
| UnicodeDecodeError
| XMLSyntaxError
| AttributeError.

Inductive result (A : Type) : Type :=
| Ok (a : A)
| Raise (e : exception).

Arguments Ok {A} a.
Arguments Raise {A} e.

Definition bind {A B : Type} (c : result A) (k : A -> result B) : result B :=
  match c with
  | Ok a => k a
  | Raise e => Raise e
  end.

Notation "x <- c ;; k" := (bind c (fun x => k))
  (at level 61, c at next level, right associativity).
Notation "' pat <- c ;; k" := (bind c (fun x => match x with pat => k end))
  (at level 61, pat pattern, c at next level, right associativity).

Definition is_ok {A : Type} (c : result A) : bool :=
  match c with Ok _ => true | Raise _ => false end.

Definition option_eqb (a b : option string) : bool :=
  match a, b with
  | Some x, Some y => String.eqb x y
  | None, None => true
  | _, _ => false
  end.

(** ** Python [str] operations used by the reader *)

Module PyStr.

(** [s.split(sep)] for a one-character separator: never empty. *)
Fixpoint split (sep : ascii) (s : string) : list string :=
  match s with
  | EmptyString => [EmptyString]
  | String c s' =>
      if Ascii.eqb c sep then EmptyString :: split sep s'
      else match split sep s' with
           | [] => [String c EmptyString]
           | w :: ws => String c w :: ws
           end
  end.

(** [sep.join(parts)]. *)
Definition join (sep : string) (parts : list string) : string :=
  String.concat sep parts.

Fixpoint rfind_from (c : ascii) (s : string) (pos last : Z) : Z :=
  match s with
  | EmptyString => last
  | String a s' =>
      rfind_from c s' (pos + 1)%Z (if Ascii.eqb a c then pos else last)
  end.

(** [s.rfind(c)]: the highest index of [c] in [s], or [-1]. *)
Definition rfind (c : ascii) (s : string) : Z := rfind_from c s 0%Z (-1)%Z.

(** [s[n:]] for [0 <= n]. *)
Fixpoint drop (n : nat) (s : string) : string :=
  match n, s with
  | O, _ => s
  | S _, EmptyString => EmptyString
  | S n', String _ s' => drop n' s'
  end.




End PyStr.

(** ** [bytes.decode("utf-8")] and [str.encode("utf-8")] *)

Module Utf8.

Definition between (lo hi : N) (b : byte) : bool :=
  ((lo <=? Byte.to_N b) && (Byte.to_N b <=? hi))%N.

Definition is_byte (n : N) (b : byte) : bool := (Byte.to_N b =? n)%N.

(** A continuation byte, 0x80..0xBF. *)
Definition cont (b : byte) : bool := between 128 191 b.

(** Well-formed UTF-8 (no overlong forms, no surrogates, nothing above
    U+10FFFF), which is what the strict decoder accepts. *)
Fixpoint valid (bs : list byte) : bool :=
  match bs with
  | [] => true
  | b0 :: r0 =>
      if between 0 127 b0 then valid r0
      else
        match r0 with
        | [] => false
        | b1 :: r1 =>
            if between 194 223 b0 then cont b1 && valid r1
            else
              match r1 with
              | [] => false
              | b2 :: r2 =>
                  if between 224 239 b0 then
                    (if is_byte 224 b0 then between 160 191 b1
                     else if is_byte 237 b0 then between 128 159 b1
                          else cont b1)
                    && cont b2 && valid r2
                  else
                    match r2 with
                    | [] => false
                    | b3 :: r3 =>
                        if between 240 244 b0 then
                          (if is_byte 240 b0 then between 144 191 b1
                           else if is_byte 244 b0 then between 128 143 b1
                                else cont b1)
                          && cont b2 && cont b3 && valid r3
                        else false
                    end
              end
        end
  end.

End Utf8.

(** [decode(data, encoding="utf-8")] of the reader. *)
Definition decode (data : list byte) : result string :=
  if Utf8.valid data then Ok (string_of_list_byte data)
  else Raise UnicodeDecodeError.

(** [s.encode("utf-8")]. *)
Definition encode (s : string) : list byte := list_byte_of_string s.

(** ** Python [dict] with [str] keys *)

Module PyDict.
Section Dict.
Context {V : Type}.

Definition keys (d : list (string * V)) : list string := map fst d.

(** [d.get(k)] *)
Fixpoint get (d : list (string * V)) (k : string) : option V :=
  match d with
  | [] => None
  | (k', v) :: d' => if String.eqb k' k then Some v else get d' k
  end.

(** [k in d] *)
Definition contains (d : list (string * V)) (k : string) : bool :=
  match get d k with Some _ => true | None => false end.

(** [d[k]] *)
Definition getitem (d : list (string * V)) (k : string) : result V :=
  match get d k with
  | Some v => Ok v
  | None => Raise (KeyError k)
  end.

(** [d[k] = v]: an existing key keeps its place, a new one goes last. *)
Fixpoint setitem (d : list (string * V)) (k : string) (v : V)
  : list (string * V) :=
  match d with
  | [] => [(k, v)]
  | (k', v') :: d' =>
      if String.eqb k' k then (k', v) :: d' else (k', v') :: setitem d' k v
  end.

(** [dict(pairs)]: later pairs overwrite earlier ones. *)
Definition of_pairs (pairs : list (string * V)) : list (string * V) :=
  fold_left (fun d kv => setitem d (fst kv) (snd kv)) pairs [].

End Dict.

(** The type of a [dict] whose values are in [V]. *)
Abbreviation dict V := (list (string * V)) (only parsing).
End PyDict.


(** ** [os.path.basename] and [pathlib.Path(...).suffix] (POSIX flavour) *)

Module PyPath.

(** [posixpath.basename]: [i = p.rfind('/') + 1; return p[i:]]. *)
Definition basename (p : string) : string :=
  PyStr.drop (Z.to_nat (PyStr.rfind "/" p + 1)) p.

(** The parts of a pure POSIX path below its root: the components
    between slashes, empty ones and ["."] left out. *)
Definition tail_parts (p : string) : list string :=
  filter (fun x => negb (String.eqb x "") && negb (String.eqb x "."))
         (PyStr.split "/" p).

(** [PurePath.name]: the last part, or [''] when there is none. *)
Definition name (p : string) : string := last (tail_parts p) "".

(** [PurePath.suffix] as CPython up to 3.13 computes it:
    [i = name.rfind('.')], then [name[i:]] if [0 < i < len(name) - 1]
    and [''] otherwise. *)
Definition suffix (p : string) : string :=
  let nm := name p in
  let i := PyStr.rfind "." nm in
  if ((0 <? i) && (i <? Z.of_nat (String.length nm) - 1))%Z
  then PyStr.drop (Z.to_nat i) nm
  else "".

End PyPath.

(** ** lxml element trees *)

Module Etree.

(** An element: its tag in Clark notation, its attributes and its
    children in document order.  Comments and processing instructions
    are left out: their [tag] is not a string, so neither a tag test nor
    a path expression of the reader ever selects them. *)
Inductive element : Type :=
| Element (tag : string) (attrib : list (string * string))
          (children : list element).

Definition tag (e : element) : string :=
  match e with Element t _ _ => t end.

Definition attrib (e : element) : list (string * string) :=
  match e with Element _ a _ => a end.

Definition children (e : element) : list element :=
  match e with Element _ _ c => c end.

(** [e.get(key)] / [e.get(key, None)] *)
Definition get (e : element) (key : string) : option string :=
  PyDict.get (attrib e) key.

(** [e.iter()]: the element itself, then its descendants, in document
    order. *)
Fixpoint iter (e : element) : list element :=
  match e with
  | Element _ _ cs => e :: flat_map iter cs
  end.

(** [e.iterdescendants()]: as [iter], without the element itself. *)
Definition iterdescendants (e : element) : list element :=
  flat_map iter (children e).

(** [e.find("{ns}local")]: the first child carrying that tag. *)
Definition find (e : element) (qname : string) : option element :=
  List.find (fun c => String.eqb (tag c) qname) (children e).

(** [e.findall(".//{ns}local[@key]")]: the descendants carrying that tag
    and having the attribute, in document order. *)
Definition findall_descendants_with_attr
           (e : element) (qname key : string) : list element :=
  filter (fun d => String.eqb (tag d) qname
                   && match get d key with Some _ => true | None => false end)
         (iterdescendants e).

End Etree.

Import Etree.

(** ** The reader *)

Definition NS_OPF : string := "http://www.idpf.org/2007/opf".
Definition NS_CONTAINERS : string :=
  "urn:oasis:names:tc:opendocument:xmlns:container".

(** ["{%s}%s" % (namespace, local)] *)
Definition qname (namespace local : string) : string :=
  "{" ++ namespace ++ "}" ++ local.

Definition CONTENT_FILETYPES : list string := [".xhtml"; ".xml"; ".opf"].

(** [ext in CONTENT_FILETYPES] *)
Definition in_content_filetypes (ext : string) : bool :=
  existsb (String.eqb ext) CONTENT_FILETYPES.

Record Epub : Type := mkEpub { texts : list string }.

(** [Epub.dump_contents]: the loop [epub_text += text]. *)
Definition dump_contents (self : Epub) : string :=
  fold_left (fun epub_text text => epub_text ++ text) (texts self) "".

Record UncompressedEpub : Type := mkUncompressedEpub {
  rootfiles : list string;
  files : PyDict.dict (list byte)
}.

(** The body of [for path in files] in [normalize_path]. *)
Fixpoint normalize_loop (files : PyDict.dict (list byte))
         (paths : list string) (normalized_dict : PyDict.dict (list byte))
  : result (PyDict.dict (list byte)) :=
  match paths with
  | [] => Ok normalized_dict
  | path :: rest =>
      let path_arr := PyStr.split "/" path in
      if Nat.eqb (List.length path_arr) 1 then
        normalize_loop files rest normalized_dict
      else
        let normalized_path := PyStr.join "/" (tl path_arr) in
        v <- PyDict.getitem files path ;;
        normalize_loop files rest
                       (PyDict.setitem normalized_dict normalized_path v)
  end.

Definition normalize_path (rootfiles : list string)
           (files : PyDict.dict (list byte))
  : result (PyDict.dict (list byte)) :=
  match rootfiles with
  | [] => Raise IndexError
  | first :: _ =>
      if PyDict.contains files first then Ok files
      else normalize_loop files (PyDict.keys files) []
  end.

(** The loop of [extract_root_path] over the elements [findall]
    returned. *)
Fixpoint root_path_loop (root_files : list element) (rootfiles : list string)
  : list string :=
  match root_files with
  | [] => rootfiles
  | root_file :: rest =>
      let mediatype := get root_file "media-type" in
      let fullpath := get root_file "full-path" in
      match fullpath with
      | Some fp =>
          if option_eqb mediatype (Some "application/oebps-package+xml")
          then root_path_loop rest (rootfiles ++ [fp])%list
          else root_path_loop rest rootfiles
      | None => root_path_loop rest rootfiles
      end
  end.

(** [extract_root_path] once the container is parsed. *)
Definition extract_root_path_of_tree (tree : element) : list string :=
  let root_files :=
    findall_descendants_with_attr tree (qname NS_CONTAINERS "rootfile")
                                  "media-type" in
  root_path_loop root_files [].

(** [read_unzipped_chunks]: the loop over the chunks, [file_bytes] being
    [None] until a chunk of a text file is seen. *)
Fixpoint read_chunks_loop (file_chunks : list (list byte)) (is_textfile : bool)
         (file_bytes : option (list byte)) : option (list byte) :=
  match file_chunks with
  | [] => file_bytes
  | chunk :: rest =>
      if negb is_textfile then read_chunks_loop rest is_textfile file_bytes
      else
        match file_bytes with
        | None => read_chunks_loop rest is_textfile (Some chunk)
        | Some b => read_chunks_loop rest is_textfile (Some (b ++ chunk)%list)
        end
  end.

Definition read_unzipped_chunks (file_chunks : list (list byte))
           (is_textfile : bool) : option (list byte) :=
  read_chunks_loop file_chunks is_textfile None.

Definition fix_mediatype (mediatype : option string) : option string :=
  if option_eqb mediatype (Some "image/jpg") then Some "image/jpeg"
  else mediatype.

(** What [stream_unzip] yields for one archive member. *)
Record entry : Type := mkEntry {
  file_path : list byte;
  file_size : N;
  unzipped_chunks : list (list byte)
}.

Definition no_rootfile_msg : string :=
  "No root file found in META-INF/container.xml definition."
  ++ " (Epub is not correctly packaged, unable to find content)".

Section Reader.

(** [etree.fromstring(text, parser=xml_parser_singleton)] with the
    recovering parser: it raises, or returns the root element, or returns
    [None] when it recovered no element at all. *)
Variable fromstring : list byte -> result (option element).

(** [html2text.html2text] *)
Variable html2text : string -> string.

Definition parse_as_etree (xml_data : list byte) : result (option element) :=
  xml_as_string <- decode xml_data ;;
  let lxml_friendly_encoded_data := encode xml_as_string in
  fromstring lxml_friendly_encoded_data.

(** A method call on the parser's result: [AttributeError] on [None]. *)
Definition deref (tree : option element) : result element :=
  match tree with
  | Some t => Ok t
  | None => Raise AttributeError
  end.

Definition extract_root_path (container_file : list byte)
  : result (list string) :=
  tree <- parse_as_etree container_file ;;
  tree <- deref tree ;;
  Ok (extract_root_path_of_tree tree).

(** One turn of the loop of [uncompress_epub] over the archive members;
    the state is the pair of [files] and [rootfiles]. *)
Definition uncompress_step
           (st : PyDict.dict (list byte) * list string) (e : entry)
  : result (PyDict.dict (list byte) * list string) :=
  let '(files, rootfiles) := st in
  filepath <- decode (file_path e) ;;
  let filename := PyPath.basename filepath in
  let file_ext := PyPath.suffix filepath in
  let is_textfile := in_content_filetypes file_ext in
  match read_unzipped_chunks (unzipped_chunks e) is_textfile with
  | None => Ok (files, rootfiles)
  | Some current_bytes =>
      if String.eqb filename "container.xml" then
        rootfiles' <- extract_root_path current_bytes ;;
        Ok (files, rootfiles')
      else
        Ok (PyDict.setitem files filepath current_bytes, rootfiles)
  end.

Fixpoint uncompress_loop (stream : list entry)
         (st : PyDict.dict (list byte) * list string)
  : result (PyDict.dict (list byte) * list string) :=
  match stream with
  | [] => Ok st
  | e :: rest =>
      st' <- uncompress_step st e ;;
      uncompress_loop rest st'
  end.

Definition uncompress_epub (stream : list entry) : result UncompressedEpub :=
  ' (files, rootfiles) <- uncompress_loop stream ([], []) ;;
  if Nat.eqb (List.length rootfiles) 0 then
    Raise (MalformedEpubException no_rootfile_msg)
  else
    normalized_files <- normalize_path rootfiles files ;;
    Ok {| files := normalized_files; rootfiles := rootfiles |}.

(** The loop of [extract_textfiles] over [manifest.iter()]. *)
Fixpoint textfiles_loop (files : PyDict.dict (list byte)) (root_dir : string)
         (items : list element) (texts : list string) : result (list string) :=
  match items with
  | [] => Ok texts
  | item :: rest =>
      if negb (String.eqb (tag item) (qname NS_OPF "item")) then
        textfiles_loop files root_dir rest texts
      else
        let media_type := fix_mediatype (get item "media-type") in
        if option_eqb media_type (Some "application/xhtml+xml") then
          match get item "href" with
          | None => textfiles_loop files root_dir rest texts
          | Some filepath =>
              let normalized_path := root_dir ++ "/" ++ filepath in
              contents <- PyDict.getitem files normalized_path ;;
              str_data <- decode contents ;;
              textfiles_loop files root_dir rest
                             (texts ++ [html2text str_data])%list
          end
        else textfiles_loop files root_dir rest texts
  end.

(** [extract_textfiles] once the rootfile is parsed. *)
Definition extract_textfiles_of_tree (tree : element)
           (files : PyDict.dict (list byte)) (root_dir : string)
  : result Epub :=
  match find tree (qname NS_OPF "manifest") with
  | None => Raise (MalformedEpubException "Rootfile has no manifest")
  | Some manifest =>
      texts <- textfiles_loop files root_dir (iter manifest) [] ;;
      Ok {| texts := texts |}
  end.

Definition extract_textfiles (rootfile : list byte)
           (files : PyDict.dict (list byte)) (root_dir : string)
  : result Epub :=
  tree <- parse_as_etree rootfile ;;
  tree <- deref tree ;;
  extract_textfiles_of_tree tree files root_dir.

(** The loop of [read_uncompressed_epubs] over the rootfiles. *)
Fixpoint publications_loop (uncompressed_epub : UncompressedEpub)
         (paths : list string) (publications : list Epub)
  : result (list Epub) :=
  match paths with
  | [] => Ok publications
  | rootfile_path :: rest =>
      let rootfile_dir := hd "" (PyStr.split "/" rootfile_path) in
      rootfile <- PyDict.getitem (files uncompressed_epub) rootfile_path ;;
      epub <- extract_textfiles rootfile (files uncompressed_epub)
                                rootfile_dir ;;
      publications_loop uncompressed_epub rest (publications ++ [epub])%list
  end.

Definition read_uncompressed_epubs (uncompressed_epub : UncompressedEpub)
  : result (list Epub) :=
  publications_loop uncompressed_epub (rootfiles uncompressed_epub) [].

Definition read (stream : list entry) : result (list Epub) :=
  uncompressed_epub <- uncompress_epub stream ;;
  read_uncompressed_epubs uncompressed_epub.

End Reader.

(** ** Reference definitions the properties are stated against *)

(** The entry classifier: the retain-or-drain decision
    [uncompress_epub] takes from the path of an archive member. *)
Definition is_textfile (filepath : string) : bool :=
  in_content_filetypes (PyPath.suffix filepath).


(** The literal concatenation of a sequence of strings, in order. *)
Fixpoint concatenation (texts : list string) : string :=
  match texts with
  | [] => ""
  | text :: rest => text ++ concatenation rest
  end.

Definition has_attr (e : element) (key : string) : bool :=
  match get e key with Some _ => true | None => false end.

(** A manifest item that is a content document: an OPF [item] with an
    [href] whose normalized media type is [application/xhtml+xml]. *)
Definition is_content_item (item : element) : bool :=
  String.eqb (tag item) (qname NS_OPF "item")
  && has_attr item "href"
  && option_eqb (fix_mediatype (get item "media-type"))
                (Some "application/xhtml+xml").

(** The content documents of a manifest, in document order. *)
Definition selected_items (manifest : element) : list element :=
  filter is_content_item (iterdescendants manifest).

(** The key under which a selected item is looked up. *)
Definition lookup_key (root_dir : string) (item : element) : string :=
  match get item "href" with
  | Some href => root_dir ++ "/" ++ href
  | None => root_dir ++ "/"
  end.

(** A selected item whose key is missing from the file map. *)
Definition dangling (files : PyDict.dict (list byte)) (root_dir : string)
           (item : element) : bool :=
  negb (PyDict.contains files (lookup_key root_dir item)).

(** The text one selected item contributes: look up, decode, convert. *)
Definition content_text (html2text : string -> string)
           (files : PyDict.dict (list byte)) (root_dir : string)
           (item : element) : result string :=
  contents <- PyDict.getitem files (lookup_key root_dir item) ;;
  str_data <- decode contents ;;
  Ok (html2text str_data).

(** Left-to-right traversal in the result monad: the first exception
    wins. *)
Fixpoint traverse {A B : Type} (f : A -> result B) (l : list A)
  : result (list B) :=
  match l with
  | [] => Ok []
  | a :: rest =>
      b <- f a ;;
      bs <- traverse f rest ;;
      Ok (b :: bs)
  end.

(** A [rootfile] of the container that declares a package document. *)
Definition is_package_rootfile (e : element) : bool :=
  String.eqb (tag e) (qname NS_CONTAINERS "rootfile")
  && option_eqb (get e "media-type") (Some "application/oebps-package+xml").

(** ... with a [full-path] attribute, whatever its value. *)
Definition declares_path (e : element) : bool :=
  is_package_rootfile e && has_attr e "full-path".

(** ... with a [full-path] attribute that is not the empty string. *)
Definition declares_nonempty_path (e : element) : bool :=
  is_package_rootfile e
  && match get e "full-path" with
     | Some fp => negb (String.eqb fp "")
     | None => false
     end.

Definition full_path (e : element) : string :=
  match get e "full-path" with Some fp => fp | None => "" end.

(** The re-keyed file map of the path normalizer: entries whose path has
    a single segment are dropped, the others lose their first segment. *)
Definition has_subpath (kv : string * list byte) : bool :=
  negb (Nat.eqb (List.length (PyStr.split "/" (fst kv))) 1).

Definition strip_first_segment (kv : string * list byte)
  : string * list byte :=
  (PyStr.join "/" (tl (PyStr.split "/" (fst kv))), snd kv).

Definition rekeyed (files : PyDict.dict (list byte))
  : PyDict.dict (list byte) :=
  PyDict.of_pairs (map strip_first_segment (filter has_subpath files)).

(** The payload of an archive member that [uncompress_epub] hands to
    [extract_root_path]: the member is named [container.xml] and its
    bytes were kept. *)
Definition container_payload (e : entry) : option (list byte) :=
  match decode (file_path e) with
  | Ok filepath =>
      if String.eqb (PyPath.basename filepath) "container.xml"
      then read_unzipped_chunks (unzipped_chunks e) (is_textfile filepath)
      else None
  | Raise _ => None
  end.

Definition is_structural_error {A : Type} (c : result A) : bool :=
  match c with
  | Raise (MalformedEpubException _) => true
  | _ => false
  end.

Definition is_lookup_error {A : Type} (c : result A) : bool :=
  match c with
  | Raise (KeyError _) => true
  | _ => false
  end.

(** The publication of one rootfile: what one turn of the loop of
    [read_uncompressed_epubs] appends. *)
Definition publication_of (fromstring : list byte -> result (option element))
           (html2text : string -> string)
           (uncompressed_epub : UncompressedEpub) (rootfile_path : string)
  : result Epub :=
  rootfile <- PyDict.getitem (files uncompressed_epub) rootfile_path ;;
  extract_textfiles fromstring html2text rootfile (files uncompressed_epub)
                    (hd "" (PyStr.split "/" rootfile_path)).

(** ** A small publication, used to exercise the definitions *)

Module Sample.

Definition container_xml_head : string :=
  "<?xml version='1.0'?><container version='1.0' "
  ++ "xmlns='urn:oasis:names:tc:opendocument:xmlns:container'><rootfiles>".

Definition container_xml_tail : string :=
  "<rootfile full-path='OEBPS/content.opf' "
  ++ "media-type='application/oebps-package+xml'/></rootfiles></container>".

Definition container_xml : string := container_xml_head ++ container_xml_tail.

Definition container_tree : element :=
  Element (qname NS_CONTAINERS "container") [("version", "1.0")]
    [Element (qname NS_CONTAINERS "rootfiles") []
       [Element (qname NS_CONTAINERS "rootfile")
          [("full-path", "OEBPS/content.opf");
           ("media-type", "application/oebps-package+xml")] []]].

Definition opf_xml : string :=
  "<package xmlns='http://www.idpf.org/2007/opf' version='3.0'><metadata/>"
  ++ "<manifest>"
  ++ "<item id='toc' href='toc.xhtml' media-type='application/xhtml+xml'/>"
  ++ "<item id='css' href='style.css' media-type='text/css'/>"
  ++ "<item id='cover' href='cover.jpg' media-type='image/jpg'/>"
  ++ "<item id='ch1' href='ch1.xhtml' media-type='application/xhtml+xml'/>"
  ++ "<item id='nohref' media-type='application/xhtml+xml'/>"
  ++ "</manifest><spine/></package>".

Definition item (attrs : list (string * string)) : element :=
  Element (qname NS_OPF "item") attrs [].

Definition manifest_tree : element :=
  Element (qname NS_OPF "manifest") []
    [item [("id", "toc"); ("href", "toc.xhtml");
           ("media-type", "application/xhtml+xml")];
     item [("id", "css"); ("href", "style.css"); ("media-type", "text/css")];
     item [("id", "cover"); ("href", "cover.jpg");
           ("media-type", "image/jpg")];
     item [("id", "ch1"); ("href", "ch1.xhtml");
           ("media-type", "application/xhtml+xml")];
     item [("id", "nohref"); ("media-type", "application/xhtml+xml")]].

Definition opf_tree : element :=
  Element (qname NS_OPF "package") [("version", "3.0")]
    [Element (qname NS_OPF "metadata") [] [];
     manifest_tree;
     Element (qname NS_OPF "spine") [] []].

Definition toc_xhtml : string := "<html><body><h1>Contents</h1></body></html>".
Definition ch1_xhtml : string := "<html><body><p>Chapter one</p></body></html>".

(** A parser that knows the two documents above. *)
Definition fromstring (text : list byte) : result (option element) :=
  let s := string_of_list_byte text in
  if String.eqb s container_xml then Ok (Some container_tree)
  else if String.eqb s opf_xml then Ok (Some opf_tree)
       else Ok None.

(** A converter that leaves the markup in place. *)
Definition html2text (html : string) : string := html.

Definition member (path : string) (chunks : list string) : entry :=
  {| file_path := encode path;
     file_size := N.of_nat (String.length (concatenation chunks));
     unzipped_chunks := map encode chunks |}.

Definition stream : list entry :=
  [member "mimetype" ["application/epub+zip"];
   member "META-INF/container.xml" [container_xml_head; container_xml_tail];
   member "OEBPS/content.opf" [opf_xml];
   member "OEBPS/toc.xhtml" [toc_xhtml];
   member "OEBPS/empty.xhtml" [];
   member "OEBPS/style.css" ["body { margin: 0 }"];
   member "OEBPS/ch1.xhtml" [ch1_xhtml]].

(** The same publication, wrapped one directory deeper. *)
Definition wrapped_files : PyDict.dict (list byte) :=
  [("book/OEBPS/content.opf", encode opf_xml);
   ("notes.xml", encode "<notes/>");
   ("book/OEBPS/toc.xhtml", encode toc_xhtml);
   ("book/OEBPS/ch1.xhtml", encode ch1_xhtml)].

Definition plain_files : PyDict.dict (list byte) :=
  [("OEBPS/content.opf", encode opf_xml);
   ("OEBPS/toc.xhtml", encode toc_xhtml);
   ("OEBPS/ch1.xhtml", encode ch1_xhtml)].

(** A container whose only package rootfile has an empty [full-path]. *)
Definition container_empty_path : element :=
  Element (qname NS_CONTAINERS "container") []
    [Element (qname NS_CONTAINERS "rootfiles") []
       [Element (qname NS_CONTAINERS "rootfile")
          [("full-path", ""); ("media-type", "application/oebps-package+xml")]
          []]].

(** A package whose first content document is not UTF-8 and whose second
    one is not shipped. *)
Definition item_a : element :=
  item [("id", "a"); ("href", "a.xhtml");
        ("media-type", "application/xhtml+xml")].

Definition item_b : element :=
  item [("id", "b"); ("href", "b.xhtml");
        ("media-type", "application/xhtml+xml")].

Definition manifest_bad_then_dangling : element :=
  Element (qname NS_OPF "manifest") [] [item_a; item_b].

Definition opf_bad_then_dangling : element :=
  Element (qname NS_OPF "package") [] [manifest_bad_then_dangling].

Definition files_bad_then_dangling : PyDict.dict (list byte) :=
  [("OEBPS/a.xhtml", [xff; xfe])].

(** An archive whose container is UTF-16 (it opens with the byte order
    mark FF FE). *)
Definition stream_utf16_container : list entry :=
  [{| file_path := encode "META-INF/container.xml";
      file_size := 4;
      unzipped_chunks := [[xff; xfe; x3c; x00]] |}].

(** An archive that ships its container and nothing else. *)
Definition stream_container_only : list entry :=
  [member "mimetype" ["application/epub+zip"];
   member "META-INF/container.xml" [container_xml]].

End Sample.

(** ** Further reference definitions *)

(** A path segment: a string without slash. *)
Fixpoint no_slash (s : string) : bool :=
  match s with
  | EmptyString => true
  | String c s' => negb (Ascii.eqb c "/") && no_slash s'
  end.

(** A file map seen from one directory above: every key is prefixed
    with [dir/]. *)
Definition wrap_files (dir : string) (files : PyDict.dict (list byte))
  : PyDict.dict (list byte) :=
  map (fun kv => (dir ++ "/" ++ fst kv, snd kv)) files.

(** What the loop of [uncompress_epub] files for an archive member: its
    path and its bytes, when the bytes are kept and the member is not a
    [container.xml]. *)
Definition kept_member (e : entry) : option (string * list byte) :=
  match decode (file_path e) with
  | Ok filepath =>
      if String.eqb (PyPath.basename filepath) "container.xml" then None
      else
        match read_unzipped_chunks (unzipped_chunks e) (is_textfile filepath)
        with
        | Some current_bytes => Some (filepath, current_bytes)
        | None => None
        end
  | Raise _ => None
  end.

Definition kept_members (stream : list entry) : list (string * list byte) :=
  flat_map (fun e => match kept_member e with
                     | Some kv => [kv]
                     | None => []
                     end) stream.

(** Two archive members with the same path and the same bytes, cut into
    chunks differently (and possibly with another declared size). *)
Definition rechunked (e1 e2 : entry) : Prop :=
  file_path e1 = file_path e2
  /\ List.concat (unzipped_chunks e1) = List.concat (unzipped_chunks e2)
  /\ (unzipped_chunks e1 = [] <-> unzipped_chunks e2 = []).

(** The rootfile path an element of the container declares by itself. *)
Definition own_root_path (e : element) : list string :=
  if declares_path e then [full_path e] else [].

(** The exceptions the reader raises by itself while uncompressing. *)
Definition raised_by_uncompress (x : exception) : Prop :=
  x = MalformedEpubException no_rootfile_msg
  \/ x = UnicodeDecodeError
  \/ x = AttributeError.

(** The exceptions [read] raises by itself. *)
Definition raised_by_read (x : exception) : Prop :=
  raised_by_uncompress x
  \/ x = MalformedEpubException "Rootfile has no manifest"
  \/ exists key, x = KeyError key.

(** An archive member seen from one directory above: [dir/] is put in
    front of its path. *)
Definition wrap_member (dir : string) (e : entry) : entry :=
  {| file_path := (encode dir ++ encode "/" ++ file_path e)%list;
     file_size := file_size e;
     unzipped_chunks := unzipped_chunks e |}.

(** A package whose manifest is not a child of the root element but sits
    one level deeper, with the parser that knows it. *)
Module Nested.

Definition opf_xml : string :=
  "<package xmlns='http://www.idpf.org/2007/opf' version='3.0'><extension>"
  ++ "<manifest>"
  ++ "<item id='toc' href='toc.xhtml' media-type='application/xhtml+xml'/>"
  ++ "</manifest></extension></package>".

Definition manifest_tree : element :=
  Element (qname NS_OPF "manifest") []
    [Sample.item [("id", "toc"); ("href", "toc.xhtml");
                  ("media-type", "application/xhtml+xml")]].

Definition opf_tree : element :=
  Element (qname NS_OPF "package") [("version", "3.0")]
    [Element (qname NS_OPF "extension") [] [manifest_tree]].

Definition fromstring (text : list byte) : result (option element) :=
  if String.eqb (string_of_list_byte text) opf_xml then Ok (Some opf_tree)
  else Ok None.

Definition files : PyDict.dict (list byte) :=
  [("OEBPS/toc.xhtml", encode Sample.toc_xhtml)].

End Nested.

(** * Properties *)

(** ** Strings, the result monad and dictionaries *)

Lemma string_app_nil_r (s : string) : s ++ "" = s.
Proof. induction s as [| a s IH]; simpl; [reflexivity | now rewrite IH]. Qed.

Lemma string_app_assoc (s t u : string) : (s ++ t) ++ u = s ++ t ++ u.
Proof. induction s as [| a s IH]; simpl; [reflexivity | now rewrite IH]. Qed.

Lemma bind_Ok_inv {A B : Type} (c : result A) (k : A -> result B) (b : B) :
  bind c k = Ok b -> exists a, c = Ok a /\ k a = Ok b.
Proof. destruct c as [a | x]; simpl; intros H; [eauto | discriminate]. Qed.

Lemma bind_Raise_inv {A B : Type} (c : result A) (k : A -> result B)
      (x : exception) :
  bind c k = Raise x -> c = Raise x \/ exists a, c = Ok a /\ k a = Raise x.
Proof.
  destruct c as [a | y]; simpl; intros H; [eauto |].
  left. now inversion H.
Qed.

Lemma getitem_Ok {V : Type} (d : PyDict.dict V) (k : string) (v : V) :
  PyDict.getitem d k = Ok v <-> PyDict.get d k = Some v.
Proof.
  unfold PyDict.getitem. destruct (PyDict.get d k); split; intros H;
    inversion H; reflexivity.
Qed.

Lemma getitem_missing {V : Type} (d : PyDict.dict V) (k : string) :
  PyDict.contains d k = false -> PyDict.getitem d k = Raise (KeyError k).
Proof.
  unfold PyDict.contains, PyDict.getitem.
  destruct (PyDict.get d k); [discriminate | reflexivity].
Qed.

Lemma contains_get {V : Type} (d : PyDict.dict V) (k : string) :
  PyDict.contains d k = true <-> exists v, PyDict.get d k = Some v.
Proof.
  unfold PyDict.contains. destruct (PyDict.get d k) as [v |]; split.
  - eauto.
  - reflexivity.
  - discriminate.
  - intros [v H]; discriminate.
Qed.

(** ** The publication assembler *)

Lemma dump_loop_concatenation (texts : list string) (epub_text : string) :
  fold_left (fun epub_text text => epub_text ++ text) texts epub_text
  = epub_text ++ concatenation texts.
Proof.
  revert epub_text.
  induction texts as [| text rest IH]; intros epub_text; simpl.
  - symmetry. apply string_app_nil_r.
  - rewrite IH. apply string_app_assoc.
Qed.

(** C2. For every Epub, [dump_contents] is the left-to-right
    concatenation of its texts with nothing put between them; it is the
    empty string when there are no texts. *)
Theorem dump_contents_concatenation :
  (forall self : Epub, dump_contents self = concatenation (texts self))
  /\ dump_contents {| texts := [] |} = "".
Proof.
  split.
  - intros self. unfold dump_contents. now rewrite dump_loop_concatenation.
  - reflexivity.
Qed.

(** ** Draining the chunks of an archive member *)

Lemma read_chunks_loop_drained (chunks : list (list byte))
      (file_bytes : option (list byte)) :
  read_chunks_loop chunks false file_bytes = file_bytes.
Proof. induction chunks as [| c cs IH]; simpl; [reflexivity | exact IH]. Qed.

Lemma read_chunks_loop_kept (chunks : list (list byte)) (b : list byte) :
  read_chunks_loop chunks true (Some b) = Some (b ++ List.concat chunks)%list.
Proof.
  revert b. induction chunks as [| c cs IH]; intros b; simpl.
  - now rewrite app_nil_r.
  - rewrite IH. now rewrite app_assoc.
Qed.

Lemma read_unzipped_chunks_spec (chunks : list (list byte)) (keep : bool) :
  read_unzipped_chunks chunks keep
  = if keep && negb (Nat.eqb (List.length chunks) 0)
    then Some (List.concat chunks) else None.
Proof.
  unfold read_unzipped_chunks. destruct keep; simpl.
  - destruct chunks as [| c cs]; simpl; [reflexivity |].
    now rewrite read_chunks_loop_kept.
  - apply read_chunks_loop_drained.
Qed.

Lemma uncompress_loop_app fromstring (before after : list entry) st :
  uncompress_loop fromstring (before ++ after) st
  = (st' <- uncompress_loop fromstring before st ;;
     uncompress_loop fromstring after st').
Proof.
  revert st. induction before as [| e rest IH]; intros st; simpl.
  - reflexivity.
  - destruct (uncompress_step fromstring st e) as [st' | x]; simpl.
    + apply IH.
    + reflexivity.
Qed.

Lemma uncompress_step_no_chunks fromstring st (e : entry) :
  unzipped_chunks e = [] ->
  uncompress_step fromstring st e = (filepath <- decode (file_path e) ;; Ok st).
Proof.
  intros Hc. unfold uncompress_step. destruct st as [fs rs]. rewrite Hc.
  destruct (decode (file_path e)) as [filepath | x]; reflexivity.
Qed.

(** C10. An archive member with no chunk at all makes
    [read_unzipped_chunks] return [None], text file or not, and the loop
    of [uncompress_epub] passes over it: neither the file map nor the
    rootfiles change, and the archive is read as if the member (its path
    being decodable) were not there. *)
Theorem empty_member_is_omitted fromstring (e : entry) :
  unzipped_chunks e = [] ->
  (forall keep, read_unzipped_chunks (unzipped_chunks e) keep = None)
  /\ (forall st st', uncompress_step fromstring st e = Ok st' -> st' = st)
  /\ (forall before after,
         is_ok (decode (file_path e)) = true ->
         uncompress_epub fromstring (before ++ e :: after)
         = uncompress_epub fromstring (before ++ after)).
Proof.
  intros Hc. split; [| split].
  - intros keep. rewrite Hc. now destruct keep.
  - intros st st' H. rewrite (uncompress_step_no_chunks _ _ _ Hc) in H.
    destruct (decode (file_path e)); simpl in H; [| discriminate].
    now inversion H.
  - intros before after Hd. unfold uncompress_epub.
    rewrite !uncompress_loop_app. simpl.
    destruct (uncompress_loop fromstring before ([], [])) as [st |];
      simpl; [| reflexivity].
    rewrite (uncompress_step_no_chunks _ _ _ Hc).
    destruct (decode (file_path e)); simpl; [reflexivity | discriminate].
Qed.

Lemma empty_member_is_omitted_witness :
  is_textfile "OEBPS/empty.xhtml" = true
  /\ read_unzipped_chunks
       (unzipped_chunks (Sample.member "OEBPS/empty.xhtml" [])) true
     = None
  /\ uncompress_epub Sample.fromstring Sample.stream
     = uncompress_epub Sample.fromstring
         (firstn 4 Sample.stream ++ skipn 5 Sample.stream).
Proof.
  destruct (empty_member_is_omitted
              Sample.fromstring (Sample.member "OEBPS/empty.xhtml" []) eq_refl)
    as [Hnone [_ Hskip]].
  split; [reflexivity | split].
  - apply Hnone.
  - apply (Hskip (firstn 4 Sample.stream) (skipn 5 Sample.stream)).
    reflexivity.
Defined.

(** ** The container resolver *)

Lemma filter_twice {A : Type} (f g : A -> bool) (l : list A) :
  filter g (filter f l) = filter (fun a => f a && g a) l.
Proof.
  induction l as [| a l IH]; simpl; [reflexivity |].
  destruct (f a); simpl; [destruct (g a) |]; now rewrite IH.
Qed.

Lemma root_path_loop_spec (root_files : list element) (acc : list string) :
  root_path_loop root_files acc
  = (acc ++ map full_path
       (filter (fun e => has_attr e "full-path"
                         && option_eqb (get e "media-type")
                              (Some "application/oebps-package+xml"))
               root_files))%list.
Proof.
  revert acc. induction root_files as [| e rest IH]; intros acc.
  - simpl. now rewrite app_nil_r.
  - simpl root_path_loop. simpl filter. unfold has_attr, full_path at 1.
    destruct (get e "full-path") as [fp |] eqn:Hfp; simpl.
    + destruct (option_eqb (get e "media-type")
                  (Some "application/oebps-package+xml")); simpl.
      * rewrite IH, <- app_assoc. simpl. now rewrite Hfp.
      * apply IH.
    + apply IH.
Qed.

Lemma option_eqb_Some (a : option string) (s : string) :
  option_eqb a (Some s) = true <-> a = Some s.
Proof.
  destruct a as [x |]; simpl.
  - rewrite String.eqb_eq. split; intros H; [now subst | now inversion H].
  - split; discriminate.
Qed.

(** C6, as the code has it.  [extract_root_path] returns the [full-path]
    values of exactly the descendant [rootfile] elements of the
    [CONTAINERS] namespace whose [media-type] is
    [application/oebps-package+xml] and whose [full-path] attribute is
    present (an empty value included), in document order, duplicates
    kept. *)
Theorem extract_root_path_selects_declared (tree : element) :
  extract_root_path_of_tree tree
  = map full_path (filter declares_path (iterdescendants tree)).
Proof.
  unfold extract_root_path_of_tree, findall_descendants_with_attr.
  rewrite root_path_loop_spec, filter_twice. simpl. f_equal.
  apply filter_ext. intros e.
  unfold declares_path, is_package_rootfile, has_attr.
  destruct (String.eqb (tag e) (qname NS_CONTAINERS "rootfile")); simpl;
    [| reflexivity].
  destruct (get e "media-type") as [m |]; simpl; [| reflexivity].
  destruct (get e "full-path"); simpl; [| now rewrite andb_false_r].
  now rewrite andb_true_r.
Qed.

(** C6, as it was claimed: a package rootfile whose [full-path] is the
    empty string is returned all the same. *)
Lemma extract_root_path_keeps_empty_path :
  extract_root_path_of_tree Sample.container_empty_path = [""]
  /\ map full_path (filter declares_nonempty_path
                           (iterdescendants Sample.container_empty_path))
     = [].
Proof. split; reflexivity. Qed.

(** ** The entry classifier *)



Lemma drop_app_length (s t : string) : PyStr.drop (String.length s) (s ++ t) = t.
Proof. induction s as [| a s IH]; simpl; [now destruct t | exact IH]. Qed.

Lemma string_length_app (s t : string) :
  String.length (s ++ t) = (String.length s + String.length t)%nat.
Proof. induction s as [| a s IH]; simpl; [reflexivity | now rewrite IH]. Qed.

(** The last occurrence: when [c] does not occur in [t], the highest
    index of [c] in [s ++ c :: t] is the length of [s]. *)
Lemma rfind_from_last_occurrence (c : ascii) (t : string) :
  (forall pos last, PyStr.rfind_from c t pos last = last) ->
  forall s pos last,
    PyStr.rfind_from c (s ++ String c t) pos last
    = (pos + Z.of_nat (String.length s))%Z.
Proof.
  intros Ht s. induction s as [| a s IH]; intros pos last; simpl.
  - rewrite Ascii.eqb_refl, Ht. lia.
  - rewrite IH. lia.
Qed.







(** ** The path normalizer *)

Lemma get_setitem {V : Type} (d : PyDict.dict V) (k k' : string) (v : V) :
  PyDict.get (PyDict.setitem d k v) k'
  = if String.eqb k k' then Some v else PyDict.get d k'.
Proof.
  induction d as [| [k0 v0] d IH]; simpl.
  - reflexivity.
  - destruct (String.eqb k0 k) eqn:Hk0; simpl.
    + apply String.eqb_eq in Hk0. subst k0.
      now destruct (String.eqb k k').
    + rewrite IH. destruct (String.eqb k0 k') eqn:Hk0'; [| reflexivity].
      apply String.eqb_eq in Hk0'. subst k0. now rewrite String.eqb_sym, Hk0.
Qed.

Lemma keys_setitem {V : Type} (d : PyDict.dict V) (k : string) (v : V) :
  PyDict.keys (PyDict.setitem d k v)
  = if PyDict.contains d k then PyDict.keys d
    else (PyDict.keys d ++ [k])%list.
Proof.
  unfold PyDict.contains.
  induction d as [| [k0 v0] d IH]; simpl; [reflexivity |].
  destruct (String.eqb k0 k) eqn:Hk0; simpl; [reflexivity |].
  rewrite IH. now destruct (PyDict.get d k).
Qed.

Lemma get_None_not_key {V : Type} (d : PyDict.dict V) (k : string) :
  PyDict.get d k = None -> ~ In k (PyDict.keys d).
Proof.
  induction d as [| [k0 v0] d IH]; simpl; [tauto |].
  destruct (String.eqb k0 k) eqn:Hk0; [discriminate |].
  apply String.eqb_neq in Hk0. intros Hget [Heq | Hin]; [congruence |].
  now apply IH.
Qed.

Lemma setitem_NoDup {V : Type} (d : PyDict.dict V) (k : string) (v : V) :
  NoDup (PyDict.keys d) -> NoDup (PyDict.keys (PyDict.setitem d k v)).
Proof.
  intros Hd. rewrite keys_setitem. unfold PyDict.contains.
  destruct (PyDict.get d k) eqn:Hget; [exact Hd |].
  apply get_None_not_key in Hget.
  apply NoDup_rev in Hd. rewrite <- (rev_involutive (_ ++ _)).
  apply NoDup_rev. rewrite rev_app_distr. simpl. constructor; [| exact Hd].
  now rewrite <- in_rev.
Qed.

Lemma of_pairs_loop_NoDup {V : Type} (pairs : list (string * V))
      (d : PyDict.dict V) :
  NoDup (PyDict.keys d) ->
  NoDup (PyDict.keys
           (fold_left (fun d kv => PyDict.setitem d (fst kv) (snd kv)) pairs d)).
Proof.
  revert d. induction pairs as [| kv pairs IH]; intros d Hd; simpl.
  - exact Hd.
  - apply IH. now apply setitem_NoDup.
Qed.

Lemma get_app {V : Type} (d d' : PyDict.dict V) (k : string) :
  PyDict.get (d ++ d')%list k
  = match PyDict.get d k with Some v => Some v | None => PyDict.get d' k end.
Proof.
  induction d as [| [k0 v0] d IH]; simpl; [reflexivity |].
  now destruct (String.eqb k0 k).
Qed.

(** In [dict(pairs)] the last pair of a key decides its value. *)
Lemma get_of_pairs_loop {V : Type} (pairs : list (string * V))
      (d : PyDict.dict V) (k : string) :
  PyDict.get
    (fold_left (fun d kv => PyDict.setitem d (fst kv) (snd kv)) pairs d) k
  = match PyDict.get (rev pairs) k with
    | Some v => Some v
    | None => PyDict.get d k
    end.
Proof.
  revert d. induction pairs as [| [k0 v0] pairs IH]; intros d; simpl.
  - reflexivity.
  - rewrite IH, get_app, get_setitem. simpl.
    destruct (PyDict.get (rev pairs) k); [reflexivity |].
    now destruct (String.eqb k0 k).
Qed.

Lemma get_of_NoDup {V : Type} (d : PyDict.dict V) (k : string) (v : V) :
  NoDup (PyDict.keys d) -> In (k, v) d -> PyDict.get d k = Some v.
Proof.
  induction d as [| [k0 v0] d IH]; simpl; [tauto |].
  intros Hnd [Heq | Hin].
  - inversion Heq; subst. now rewrite String.eqb_refl.
  - inversion Hnd as [| ? ? Hnotin Hnd']; subst.
    destruct (String.eqb k0 k) eqn:Hk0.
    + apply String.eqb_eq in Hk0. subst k0. exfalso. apply Hnotin.
      change k with (fst (k, v)). now apply in_map.
    + now apply IH.
Qed.

Lemma normalize_loop_pairs (files part : PyDict.dict (list byte))
      (acc : PyDict.dict (list byte)) :
  NoDup (PyDict.keys files) ->
  incl part files ->
  normalize_loop files (PyDict.keys part) acc
  = Ok (fold_left (fun d kv => PyDict.setitem d (fst kv) (snd kv))
                  (map strip_first_segment (filter has_subpath part)) acc).
Proof.
  intros Hnd. revert acc.
  induction part as [| [path v] part IH]; intros acc Hincl; simpl.
  - reflexivity.
  - assert (Hrest : incl part files)
      by (intros kv Hkv; apply Hincl; now right).
    unfold has_subpath at 1. simpl fst.
    destruct (Nat.eqb (List.length (PyStr.split "/" path)) 1); simpl.
    + now apply IH.
    + rewrite (proj2 (getitem_Ok files path v)).
      * simpl. now apply IH.
      * apply get_of_NoDup; [exact Hnd | apply Hincl; now left].
Qed.

(** C4. For a non-empty rootfile list and a file map: when the first
    rootfile is a key, [normalize_path] returns the map as it is, so
    that normalizing its own result again changes nothing once the first
    rootfile is a key of it; otherwise it returns the map in which the
    single-segment paths are gone and every other entry is filed under
    its path without the first segment (the last entry filed under a key
    deciding its value), which is again a map with distinct keys. *)
Theorem normalize_path_spec (first : string) (rest : list string)
        (files : PyDict.dict (list byte)) :
  NoDup (PyDict.keys files) ->
  (PyDict.contains files first = true ->
   normalize_path (first :: rest) files = Ok files)
  /\ (PyDict.contains files first = false ->
      normalize_path (first :: rest) files = Ok (rekeyed files))
  /\ (forall normalized,
         normalize_path (first :: rest) files = Ok normalized ->
         NoDup (PyDict.keys normalized)
         /\ (PyDict.contains normalized first = true ->
             normalize_path (first :: rest) normalized = Ok normalized))
  /\ (forall key,
         PyDict.get (rekeyed files) key
         = PyDict.get (rev (map strip_first_segment
                                (filter has_subpath files))) key).
Proof.
  intros Hnd.
  assert (Hloop : normalize_loop files (PyDict.keys files) []
                  = Ok (rekeyed files))
    by (apply normalize_loop_pairs; [exact Hnd | apply incl_refl]).
  split; [| split; [| split]].
  - intros Hin. simpl. now rewrite Hin.
  - intros Hout. simpl. now rewrite Hout.
  - intros normalized Hnorm. split.
    + simpl in Hnorm. destruct (PyDict.contains files first).
      * inversion Hnorm; subst. exact Hnd.
      * rewrite Hloop in Hnorm. inversion Hnorm; subst.
        apply of_pairs_loop_NoDup. constructor.
    + intros Hin. simpl. now rewrite Hin.
  - intros key. unfold rekeyed, PyDict.of_pairs. rewrite get_of_pairs_loop.
    now destruct (PyDict.get _ key).
Qed.

Lemma normalize_path_spec_witness :
  normalize_path ["OEBPS/content.opf"] Sample.wrapped_files
  = Ok Sample.plain_files
  /\ normalize_path ["OEBPS/content.opf"] Sample.plain_files
     = Ok Sample.plain_files.
Proof.
  assert (Hwrapped : NoDup (PyDict.keys Sample.wrapped_files)).
  { repeat constructor; simpl; intros H;
      repeat (destruct H as [H | H]; [discriminate |]); exact H. }
  assert (Hplain : NoDup (PyDict.keys Sample.plain_files)).
  { repeat constructor; simpl; intros H;
      repeat (destruct H as [H | H]; [discriminate |]); exact H. }
  split.
  - apply (proj1 (proj2 (normalize_path_spec "OEBPS/content.opf" []
                           Sample.wrapped_files Hwrapped))).
    reflexivity.
  - apply (proj1 (normalize_path_spec "OEBPS/content.opf" []
                    Sample.plain_files Hplain)).
    reflexivity.
Defined.

(** ** The manifest parser and the content extractor *)

Lemma iter_unfold (e : element) : iter e = e :: iterdescendants e.
Proof. destruct e; reflexivity. Qed.

Lemma find_tag (tree found : element) (q : string) :
  find tree q = Some found -> tag found = q /\ In found (children tree).
Proof.
  unfold find. intros H. apply find_some in H. destruct H as [Hin Heq].
  apply String.eqb_eq in Heq. auto.
Qed.

Lemma traverse_Forall2 {A B : Type} (f : A -> result B) (l : list A)
      (bs : list B) :
  traverse f l = Ok bs -> Forall2 (fun a b => f a = Ok b) l bs.
Proof.
  revert bs. induction l as [| a l IH]; intros bs H; simpl in H.
  - inversion H. constructor.
  - apply bind_Ok_inv in H. destruct H as [b [Hb H]].
    apply bind_Ok_inv in H. destruct H as [bs' [Hbs' H]].
    inversion H; subst. constructor; auto.
Qed.

Lemma traverse_first_failure {A B : Type} (f : A -> result B)
      (before after : list A) (a : A) (x : exception) :
  Forall (fun a' => is_ok (f a') = true) before ->
  f a = Raise x ->
  traverse f (before ++ a :: after) = Raise x.
Proof.
  intros Hbefore Ha. induction Hbefore as [| a' before Hok _ IH]; simpl.
  - now rewrite Ha.
  - destruct (f a'); [| discriminate]. simpl. now rewrite IH.
Qed.

Lemma traverse_some_failure {A B : Type} (f : A -> result B) (l : list A)
      (a : A) :
  In a l -> is_ok (f a) = false ->
  exists a' x, In a' l /\ f a' = Raise x /\ traverse f l = Raise x.
Proof.
  induction l as [| a0 l IH]; simpl; [tauto |].
  intros Hin Hfail. destruct (f a0) as [b0 | x0] eqn:Ha0; simpl.
  - destruct Hin as [Heq | Hin].
    + subst a0. rewrite Ha0 in Hfail. discriminate.
    + destruct (IH Hin Hfail) as [a' [x [Hin' [Ha' Ht]]]].
      exists a', x. rewrite Ht. auto.
  - exists a0, x0. auto.
Qed.

Lemma textfiles_loop_spec html2text (files : PyDict.dict (list byte))
      (root_dir : string) (items : list element) (texts : list string) :
  textfiles_loop html2text files root_dir items texts
  = (converted <- traverse (content_text html2text files root_dir)
                           (filter is_content_item items) ;;
     Ok (texts ++ converted)%list).
Proof.
  revert texts. induction items as [| item rest IH]; intros texts.
  - simpl. now rewrite app_nil_r.
  - simpl textfiles_loop. simpl filter. unfold is_content_item at 1.
    destruct (String.eqb (tag item) (qname NS_OPF "item")); simpl negb;
      cbv iota; [| apply IH].
    unfold has_attr.
    destruct (option_eqb (fix_mediatype (get item "media-type"))
                         (Some "application/xhtml+xml")).
    + destruct (get item "href") as [href |] eqn:Hhref; simpl andb; cbv iota;
        [| apply IH].
      simpl traverse. unfold content_text at 1, lookup_key. rewrite Hhref.
      change ("/" ++ href) with (String "/" href).
      destruct (PyDict.getitem files (root_dir ++ String "/" href))
        as [contents | x]; simpl; [| reflexivity].
      destruct (decode contents) as [str_data | x]; simpl; [| reflexivity].
      rewrite IH.
      destruct (traverse (content_text html2text files root_dir)
                         (filter is_content_item rest)); simpl;
        [| reflexivity].
      now rewrite <- app_assoc.
    + rewrite andb_false_r. apply IH.
Qed.

Lemma extract_textfiles_of_tree_spec html2text (tree manifest : element)
      (files : PyDict.dict (list byte)) (root_dir : string) :
  find tree (qname NS_OPF "manifest") = Some manifest ->
  extract_textfiles_of_tree html2text tree files root_dir
  = (converted <- traverse (content_text html2text files root_dir)
                           (selected_items manifest) ;;
     Ok {| texts := converted |}).
Proof.
  intros Hfind. unfold extract_textfiles_of_tree. rewrite Hfind.
  rewrite textfiles_loop_spec, iter_unfold. simpl filter.
  destruct (find_tag _ _ _ Hfind) as [Htag _].
  unfold is_content_item at 1. rewrite Htag. simpl.
  fold (selected_items manifest).
  now destruct (traverse _ (selected_items manifest)).
Qed.

Lemma content_text_failure html2text (files : PyDict.dict (list byte))
      (root_dir : string) (item : element) (x : exception) :
  content_text html2text files root_dir item = Raise x ->
  x = UnicodeDecodeError
  \/ (x = KeyError (lookup_key root_dir item)
      /\ dangling files root_dir item = true).
Proof.
  unfold content_text, dangling, PyDict.getitem, PyDict.contains, decode.
  destruct (PyDict.get files (lookup_key root_dir item)) as [contents |];
    simpl.
  - destruct (Utf8.valid contents); simpl; intros H; inversion H. now left.
  - intros H. inversion H. now right.
Qed.

Lemma content_text_dangling html2text (files : PyDict.dict (list byte))
      (root_dir : string) (item : element) :
  dangling files root_dir item = true ->
  content_text html2text files root_dir item
  = Raise (KeyError (lookup_key root_dir item)).
Proof.
  unfold dangling, content_text. intros H. apply negb_true_iff in H.
  now rewrite (getitem_missing _ _ H).
Qed.

Lemma fix_mediatype_content (mediatype : option string) :
  fix_mediatype mediatype = Some "application/xhtml+xml"
  <-> mediatype = Some "application/xhtml+xml".
Proof.
  unfold fix_mediatype.
  destruct (option_eqb mediatype (Some "image/jpg")) eqn:Hjpg.
  - apply option_eqb_Some in Hjpg. subst mediatype. split; discriminate.
  - tauto.
Qed.

(** C3, as the code has it.  When the root element of the rootfile has
    an OPF [manifest] among its children (the first such child is the
    manifest), the texts extracted are, one for one and in manifest
    document order, those of the descendant OPF [item] elements of the
    manifest that carry an [href] and whose media type, once [image/jpg]
    is rewritten to [image/jpeg] and every other value left alone, is
    exactly [application/xhtml+xml]; items without [href] and items of
    any other type contribute nothing. *)
Theorem extract_textfiles_selects_content_items fromstring html2text
        (rootfile : list byte) (tree manifest : element)
        (files : PyDict.dict (list byte)) (root_dir : string) :
  parse_as_etree fromstring rootfile = Ok (Some tree) ->
  find tree (qname NS_OPF "manifest") = Some manifest ->
  extract_textfiles fromstring html2text rootfile files root_dir
  = (converted <- traverse (content_text html2text files root_dir)
                           (selected_items manifest) ;;
     Ok {| texts := converted |})
  /\ extract_textfiles_of_tree html2text tree files root_dir
     = extract_textfiles fromstring html2text rootfile files root_dir
  /\ (forall epub,
         extract_textfiles fromstring html2text rootfile files root_dir
         = Ok epub ->
         Forall2 (fun item text =>
                    content_text html2text files root_dir item = Ok text)
                 (selected_items manifest) (texts epub))
  /\ (forall item,
         In item (selected_items manifest) <->
         In item (iterdescendants manifest)
         /\ tag item = qname NS_OPF "item"
         /\ (exists href, get item "href" = Some href)
         /\ fix_mediatype (get item "media-type")
            = Some "application/xhtml+xml")
  /\ fix_mediatype (Some "image/jpg") = Some "image/jpeg"
  /\ (forall mediatype,
         mediatype <> Some "image/jpg" -> fix_mediatype mediatype = mediatype).
Proof.
  intros Hparse Hfind.
  assert (Htree : extract_textfiles fromstring html2text rootfile files
                                    root_dir
                  = extract_textfiles_of_tree html2text tree files root_dir)
    by (unfold extract_textfiles; now rewrite Hparse).
  pose proof (extract_textfiles_of_tree_spec html2text _ _ files root_dir Hfind)
    as Hspec.
  rewrite <- Htree in Hspec.
  split; [exact Hspec | split; [now symmetry | split; [| split; [| split]]]].
  - intros epub Hok. rewrite Hspec in Hok.
    apply bind_Ok_inv in Hok. destruct Hok as [converted [Ht Hok]].
    inversion Hok; subst. simpl. now apply traverse_Forall2.
  - intros item. unfold selected_items. rewrite filter_In.
    unfold is_content_item, has_attr.
    rewrite !andb_true_iff, String.eqb_eq, option_eqb_Some.
    destruct (get item "href") as [href |].
    + intuition eauto.
    + intuition; try discriminate.
      match goal with H : exists _, None = Some _ |- _ =>
        destruct H; discriminate end.
  - reflexivity.
  - intros mediatype Hm. unfold fix_mediatype.
    destruct (option_eqb mediatype (Some "image/jpg")) eqn:Hjpg;
      [| reflexivity].
    apply option_eqb_Some in Hjpg. contradiction.
Qed.

Lemma extract_textfiles_selects_content_items_witness :
  extract_textfiles Sample.fromstring Sample.html2text
                    (encode Sample.opf_xml) Sample.plain_files "OEBPS"
  = Ok {| texts := [Sample.toc_xhtml; Sample.ch1_xhtml] |}
  /\ List.length (selected_items Sample.manifest_tree) = 2%nat.
Proof.
  split; [| reflexivity].
  rewrite (proj1 (extract_textfiles_selects_content_items
                    Sample.fromstring Sample.html2text
                    (encode Sample.opf_xml) Sample.opf_tree
                    Sample.manifest_tree Sample.plain_files "OEBPS"
                    eq_refl eq_refl)).
  reflexivity.
Defined.

(** C3, as it was claimed: the tree of the rootfile contains an OPF
    manifest, one level below a child of the root, whose only item is a
    content document that is shipped; nothing is extracted, the rootfile
    is rejected for having no manifest. *)
Lemma nested_manifest_is_not_found :
  parse_as_etree Nested.fromstring (encode Nested.opf_xml)
  = Ok (Some Nested.opf_tree)
  /\ In Nested.manifest_tree (iterdescendants Nested.opf_tree)
  /\ tag Nested.manifest_tree = qname NS_OPF "manifest"
  /\ traverse (content_text Sample.html2text Nested.files "OEBPS")
              (selected_items Nested.manifest_tree)
     = Ok [Sample.toc_xhtml]
  /\ extract_textfiles Nested.fromstring Sample.html2text
                       (encode Nested.opf_xml) Nested.files "OEBPS"
     = Raise (MalformedEpubException "Rootfile has no manifest").
Proof.
  split; [reflexivity | split; [| split; [| split]]]; try reflexivity.
  simpl. right. left. reflexivity.
Qed.

(** C7, as the code has it.  When a selected content item of the manifest
    resolves to a key that the file map lacks, extraction never returns
    an Epub: it raises.  The exception is the [KeyError] of the first
    such item when every selected item before it is found and decodes;
    otherwise it is the [KeyError] of some missing key or the decoding
    error of an item met earlier.  An Epub that is returned has one text
    per selected item, none of them dangling. *)
Theorem dangling_item_fails_extraction html2text
        (tree manifest : element) (files : PyDict.dict (list byte))
        (root_dir : string) :
  find tree (qname NS_OPF "manifest") = Some manifest ->
  (forall item,
      In item (selected_items manifest) ->
      dangling files root_dir item = true ->
      exists x,
        extract_textfiles_of_tree html2text tree files root_dir = Raise x
        /\ (x = UnicodeDecodeError
            \/ exists item',
                In item' (selected_items manifest)
                /\ dangling files root_dir item' = true
                /\ x = KeyError (lookup_key root_dir item')))
  /\ (forall before item after,
         selected_items manifest = (before ++ item :: after)%list ->
         Forall (fun earlier =>
                   is_ok (content_text html2text files root_dir earlier)
                   = true) before ->
         dangling files root_dir item = true ->
         extract_textfiles_of_tree html2text tree files root_dir
         = Raise (KeyError (lookup_key root_dir item)))
  /\ (forall epub,
         extract_textfiles_of_tree html2text tree files root_dir = Ok epub ->
         List.length (texts epub) = List.length (selected_items manifest)
         /\ Forall (fun item => dangling files root_dir item = false)
                   (selected_items manifest)).
Proof.
  intros Hfind.
  pose proof (extract_textfiles_of_tree_spec html2text _ _ files root_dir Hfind)
    as Hspec.
  split; [| split].
  - intros item Hin Hdangling.
    destruct (traverse_some_failure
                (content_text html2text files root_dir)
                (selected_items manifest) item Hin)
      as [item' [x [Hin' [Hfail Htraverse]]]].
    + now rewrite (content_text_dangling _ _ _ _ Hdangling).
    + exists x. rewrite Hspec, Htraverse. split; [reflexivity |].
      destruct (content_text_failure _ _ _ _ _ Hfail) as [Hx | [Hx Hd]].
      * now left.
      * right. exists item'. auto.
  - intros before item after Hsel Hbefore Hdangling.
    rewrite Hspec, Hsel.
    rewrite (traverse_first_failure _ before after item
               (KeyError (lookup_key root_dir item)) Hbefore).
    + reflexivity.
    + now apply content_text_dangling.
  - intros epub Hok. rewrite Hspec in Hok.
    apply bind_Ok_inv in Hok. destruct Hok as [converted [Ht Hok]].
    inversion Hok; subst. simpl. apply traverse_Forall2 in Ht. split.
    + symmetry. eapply Forall2_length. exact Ht.
    + clear Hspec Hok. induction Ht as [| item text l l' Hitem _ IH];
        constructor; [| exact IH].
      destruct (dangling files root_dir item) eqn:Hd; [| reflexivity].
      rewrite (content_text_dangling _ _ _ _ Hd) in Hitem. discriminate.
Qed.

Lemma dangling_item_fails_extraction_witness :
  extract_textfiles_of_tree Sample.html2text Sample.opf_tree
                            [("OEBPS/toc.xhtml", encode Sample.toc_xhtml)]
                            "OEBPS"
  = Raise (KeyError "OEBPS/ch1.xhtml").
Proof.
  apply (proj1 (proj2 (dangling_item_fails_extraction
                         Sample.html2text Sample.opf_tree Sample.manifest_tree
                         [("OEBPS/toc.xhtml", encode Sample.toc_xhtml)]
                         "OEBPS" eq_refl))
           [nth 0 (children Sample.manifest_tree) Sample.manifest_tree]
           (nth 3 (children Sample.manifest_tree) Sample.manifest_tree)
           []).
  - reflexivity.
  - repeat constructor.
  - reflexivity.
Defined.

(** C7, as it was claimed: the first content document is shipped but is
    not UTF-8, the second is not shipped; the exception raised is the
    decoding error of the first, not a lookup error. *)
Lemma dangling_item_behind_undecodable_one :
  find Sample.opf_bad_then_dangling (qname NS_OPF "manifest")
  = Some Sample.manifest_bad_then_dangling
  /\ In Sample.item_b (selected_items Sample.manifest_bad_then_dangling)
  /\ dangling Sample.files_bad_then_dangling "OEBPS" Sample.item_b = true
  /\ extract_textfiles_of_tree Sample.html2text Sample.opf_bad_then_dangling
                               Sample.files_bad_then_dangling "OEBPS"
     = Raise UnicodeDecodeError
  /\ is_lookup_error
       (extract_textfiles_of_tree Sample.html2text
                                  Sample.opf_bad_then_dangling
                                  Sample.files_bad_then_dangling "OEBPS")
     = false.
Proof.
  split; [reflexivity | split; [| split; [| split]]]; try reflexivity.
  simpl. right. left. reflexivity.
Qed.

(** ** Reading the archive: the rootfiles *)



Lemma publications_loop_spec fromstring html2text
      (uncompressed_epub : UncompressedEpub) (paths : list string)
      (publications : list Epub) :
  publications_loop fromstring html2text uncompressed_epub paths publications
  = (epubs <- traverse (publication_of fromstring html2text uncompressed_epub)
                       paths ;;
     Ok (publications ++ epubs)%list).
Proof.
  revert publications.
  induction paths as [| rootfile_path rest IH]; intros publications; simpl.
  - now rewrite app_nil_r.
  - unfold publication_of at 1.
    destruct (PyDict.getitem (files uncompressed_epub) rootfile_path)
      as [rootfile | x]; simpl; [| reflexivity].
    destruct (extract_textfiles fromstring html2text rootfile
                (files uncompressed_epub)
                (hd "" (PyStr.split "/" rootfile_path)))
      as [epub | x]; simpl; [| reflexivity].
    rewrite IH.
    destruct (traverse (publication_of fromstring html2text uncompressed_epub)
                       rest); simpl; [| reflexivity].
    now rewrite <- app_assoc.
Qed.

Lemma read_uncompressed_epubs_spec fromstring html2text
      (uncompressed_epub : UncompressedEpub) :
  read_uncompressed_epubs fromstring html2text uncompressed_epub
  = traverse (publication_of fromstring html2text uncompressed_epub)
             (rootfiles uncompressed_epub).
Proof.
  unfold read_uncompressed_epubs. rewrite publications_loop_spec.
  now destruct (traverse _ (rootfiles uncompressed_epub)).
Qed.



(** ** Reading the archive: failures *)

Lemma uncompress_loop_no_rootfile fromstring (stream : list entry)
      (fs : PyDict.dict (list byte)) :
  Forall (fun e => is_ok (decode (file_path e)) = true) stream ->
  (forall e payload,
      In e stream -> container_payload e = Some payload ->
      extract_root_path fromstring payload = Ok []) ->
  exists fs', uncompress_loop fromstring stream (fs, []) = Ok (fs', []).
Proof.
  intros Hpaths. revert fs.
  induction Hpaths as [| e rest Hpath _ IH]; intros fs Hcontainers.
  - exists fs. reflexivity.
  - assert (Hrest : forall e' payload,
               In e' rest -> container_payload e' = Some payload ->
               extract_root_path fromstring payload = Ok [])
      by (intros e' payload Hin; apply Hcontainers; now right).
    assert (Hstep : exists fs1,
               uncompress_step fromstring (fs, []) e = Ok (fs1, [])).
    { pose proof (Hcontainers e) as He.
      unfold container_payload, is_textfile in He. unfold uncompress_step.
      destruct (decode (file_path e)) as [filepath | x];
        [| discriminate]. simpl.
      destruct (read_unzipped_chunks (unzipped_chunks e)
                  (in_content_filetypes (PyPath.suffix filepath)))
        as [current_bytes |]; [| now exists fs].
      destruct (String.eqb (PyPath.basename filepath) "container.xml").
      - rewrite (He current_bytes (or_introl eq_refl) eq_refl). simpl.
        now exists fs.
      - eexists. reflexivity. }
    destruct Hstep as [fs1 Hstep].
    destruct (IH fs1 Hrest) as [fs' Hloop].
    exists fs'.
    change (uncompress_loop fromstring (e :: rest) (fs, []))
      with (st' <- uncompress_step fromstring (fs, []) e ;;
            uncompress_loop fromstring rest st').
    rewrite Hstep. exact Hloop.
Qed.

(** C8, as the code has it.  When the paths of the archive members decode
    and every [container.xml] whose bytes are kept parses to a container
    without qualifying rootfile (there may be no [container.xml] at
    all), [uncompress_epub] raises [MalformedEpubException] with the
    no-rootfile message, and so does [read]: no Epub is produced. *)
Theorem no_rootfile_is_malformed fromstring html2text (stream : list entry) :
  Forall (fun e => is_ok (decode (file_path e)) = true) stream ->
  (forall e payload,
      In e stream -> container_payload e = Some payload ->
      extract_root_path fromstring payload = Ok []) ->
  uncompress_epub fromstring stream
  = Raise (MalformedEpubException no_rootfile_msg)
  /\ read fromstring html2text stream
     = Raise (MalformedEpubException no_rootfile_msg)
  /\ (forall epubs, read fromstring html2text stream <> Ok epubs).
Proof.
  intros Hpaths Hcontainers.
  destruct (uncompress_loop_no_rootfile fromstring stream [] Hpaths Hcontainers)
    as [fs' Hloop].
  assert (Hue : uncompress_epub fromstring stream
                = Raise (MalformedEpubException no_rootfile_msg))
    by (unfold uncompress_epub; now rewrite Hloop).
  assert (Hread : read fromstring html2text stream
                  = Raise (MalformedEpubException no_rootfile_msg))
    by (unfold read; now rewrite Hue).
  split; [exact Hue | split; [exact Hread |]].
  intros epubs. rewrite Hread. discriminate.
Qed.

Lemma no_rootfile_is_malformed_witness :
  read Sample.fromstring Sample.html2text
       [Sample.member "mimetype" ["application/epub+zip"];
        Sample.member "OEBPS/content.opf" [Sample.opf_xml]]
  = Raise (MalformedEpubException no_rootfile_msg).
Proof.
  apply (no_rootfile_is_malformed Sample.fromstring Sample.html2text
           [Sample.member "mimetype" ["application/epub+zip"];
            Sample.member "OEBPS/content.opf" [Sample.opf_xml]]).
  - repeat constructor.
  - intros e payload [He | [He | []]] Hpayload; subst e;
      vm_compute in Hpayload; discriminate.
Defined.

(** C8, as it was claimed: the only [container.xml] of the archive is
    UTF-16, so it yields no rootfile, and the exception raised is the
    decoding error, not [MalformedEpubException]. *)
Lemma undecodable_container_is_not_malformed :
  container_payload (nth 0 Sample.stream_utf16_container
                         (Sample.member "" []))
  = Some [xff; xfe; x3c; x00]
  /\ is_ok (extract_root_path Sample.fromstring [xff; xfe; x3c; x00]) = false
  /\ uncompress_epub Sample.fromstring Sample.stream_utf16_container
     = Raise UnicodeDecodeError
  /\ is_structural_error
       (uncompress_epub Sample.fromstring Sample.stream_utf16_container)
     = false
  /\ read Sample.fromstring Sample.html2text Sample.stream_utf16_container
     = Raise UnicodeDecodeError.
Proof. repeat split; reflexivity. Qed.

(** C9, as the code has it.  When a declared rootfile path is not a key
    of the file map, [read_uncompressed_epubs] does not complete: it
    raises, and what dereferencing that path raises is the [KeyError] of
    the path, a lookup error and not a structural one; it is the
    exception of the whole extraction when the rootfiles declared before
    it are extracted without error.  Hence an extraction that completes
    found every rootfile path in the map. *)
Theorem absent_rootfile_is_a_lookup_error fromstring html2text
        (uncompressed_epub : UncompressedEpub)
        (before after : list string) (missing : string) :
  rootfiles uncompressed_epub = (before ++ missing :: after)%list ->
  PyDict.contains (files uncompressed_epub) missing = false ->
  (exists x,
      read_uncompressed_epubs fromstring html2text uncompressed_epub = Raise x)
  /\ publication_of fromstring html2text uncompressed_epub missing
     = Raise (KeyError missing)
  /\ (Forall (fun earlier =>
                is_ok (publication_of fromstring html2text uncompressed_epub
                                      earlier) = true) before ->
      read_uncompressed_epubs fromstring html2text uncompressed_epub
      = Raise (KeyError missing)).
Proof.
  intros Hpaths Hmissing.
  assert (Hpub : publication_of fromstring html2text uncompressed_epub missing
                 = Raise (KeyError missing))
    by (unfold publication_of; now rewrite (getitem_missing _ _ Hmissing)).
  rewrite read_uncompressed_epubs_spec, Hpaths.
  split; [| split].
  - destruct (traverse_some_failure
                (publication_of fromstring html2text uncompressed_epub)
                (before ++ missing :: after)%list missing)
      as [path [x [_ [_ Hx]]]].
    + apply in_or_app. right. now left.
    + now rewrite Hpub.
    + exists x. exact Hx.
  - exact Hpub.
  - intros Hbefore. now apply traverse_first_failure.
Qed.

Lemma absent_rootfile_is_a_lookup_error_witness :
  read_uncompressed_epubs Sample.fromstring Sample.html2text
    {| rootfiles := ["OEBPS/content.opf"; "OEBPS/second.opf"];
       files := Sample.plain_files |}
  = Raise (KeyError "OEBPS/second.opf").
Proof.
  apply (proj2 (proj2 (absent_rootfile_is_a_lookup_error
                         Sample.fromstring Sample.html2text
                         {| rootfiles := ["OEBPS/content.opf";
                                          "OEBPS/second.opf"];
                            files := Sample.plain_files |}
                         ["OEBPS/content.opf"] [] "OEBPS/second.opf"
                         eq_refl eq_refl))).
  repeat constructor.
Defined.

(** C9, as it was claimed: an archive that ships its container but not
    the rootfile the container declares is uncompressed without error,
    and reading it raises a [KeyError], which is no structural error. *)
Lemma absent_rootfile_is_no_structural_error :
  uncompress_epub Sample.fromstring Sample.stream_container_only
  = Ok {| rootfiles := ["OEBPS/content.opf"]; files := [] |}
  /\ PyDict.contains (@nil (string * list byte)) "OEBPS/content.opf" = false
  /\ read Sample.fromstring Sample.html2text Sample.stream_container_only
     = Raise (KeyError "OEBPS/content.opf")
  /\ is_structural_error
       (read Sample.fromstring Sample.html2text Sample.stream_container_only)
     = false.
Proof. repeat split; reflexivity. Qed.

(** * Further properties *)

(** ** Draining chunks, again *)

(** X1. [read_unzipped_chunks] returns [None] exactly when the member is
    not a text file or has no chunk at all; whenever it returns bytes,
    they are the chunks joined in order, so a text member made of empty
    chunks only is kept with an empty payload. *)
Theorem read_unzipped_chunks_outcome (chunks : list (list byte))
        (keep : bool) :
  (read_unzipped_chunks chunks keep = None <-> keep = false \/ chunks = [])
  /\ (forall file_bytes,
         read_unzipped_chunks chunks keep = Some file_bytes ->
         file_bytes = List.concat chunks)
  /\ (keep = true -> chunks <> [] -> Forall (fun c => c = []) chunks ->
      read_unzipped_chunks chunks keep = Some []).
Proof.
  rewrite read_unzipped_chunks_spec.
  destruct keep; destruct chunks as [| c cs]; simpl;
    (split; [| split]); try (intros; discriminate); try tauto.
  - split; [discriminate | intros [H | H]; discriminate].
  - intros file_bytes H. now inversion H.
  - intros _ _ Hall. f_equal.
    change (List.concat (c :: cs) = []).
    induction Hall as [| c' cs' Hc' _ IH]; [reflexivity |].
    subst c'. exact IH.
Qed.

Lemma read_unzipped_chunks_outcome_witness :
  read_unzipped_chunks [[]; []] true = Some []
  /\ read_unzipped_chunks [] true = None.
Proof.
  split.
  - apply (proj2 (proj2 (read_unzipped_chunks_outcome [[]; []] true)));
      [reflexivity | discriminate | repeat constructor].
  - apply (proj1 (read_unzipped_chunks_outcome [] true)). now right.
Defined.

Lemma uncompress_step_rechunked fromstring st (e1 e2 : entry) :
  rechunked e1 e2 ->
  uncompress_step fromstring st e1 = uncompress_step fromstring st e2.
Proof.
  intros [Hpath [Hbytes Hnone]]. unfold uncompress_step.
  destruct st as [fs rs]. rewrite Hpath.
  destruct (decode (file_path e2)) as [filepath | x]; simpl; [| reflexivity].
  rewrite !read_unzipped_chunks_spec, Hbytes.
  replace (Nat.eqb (List.length (unzipped_chunks e1)) 0)
    with (Nat.eqb (List.length (unzipped_chunks e2)) 0); [reflexivity |].
  destruct (unzipped_chunks e1) as [| c1 cs1];
    destruct (unzipped_chunks e2) as [| c2 cs2]; simpl; try reflexivity.
  - destruct Hnone as [H _]. specialize (H eq_refl). discriminate.
  - destruct Hnone as [_ H]. specialize (H eq_refl). discriminate.
Qed.

(** X2. Where [stream_unzip] cuts the bytes of a member into chunks, and
    the size it declares for it, do not matter: two archives whose
    members agree on path and on the joined bytes (a member without
    chunk matching a member without chunk) are uncompressed and read
    alike. *)
Theorem rechunking_is_invisible fromstring html2text
        (stream1 stream2 : list entry) :
  Forall2 rechunked stream1 stream2 ->
  uncompress_epub fromstring stream1 = uncompress_epub fromstring stream2
  /\ read fromstring html2text stream1 = read fromstring html2text stream2.
Proof.
  intros Hall.
  assert (Hloop : forall st, uncompress_loop fromstring stream1 st
                             = uncompress_loop fromstring stream2 st).
  { induction Hall as [| e1 e2 s1 s2 He _ IH]; intros st; simpl.
    - reflexivity.
    - rewrite (uncompress_step_rechunked _ _ _ _ He).
      destruct (uncompress_step fromstring st e2); simpl; [apply IH |].
      reflexivity. }
  assert (Hue : uncompress_epub fromstring stream1
                = uncompress_epub fromstring stream2)
    by (unfold uncompress_epub; now rewrite Hloop).
  split; [exact Hue |]. unfold read. now rewrite Hue.
Qed.

Lemma rechunking_is_invisible_witness :
  read Sample.fromstring Sample.html2text
       [Sample.member "META-INF/container.xml"
          [Sample.container_xml_head; Sample.container_xml_tail];
        Sample.member "a.xml" ["<a/>"]]
  = read Sample.fromstring Sample.html2text
         [Sample.member "META-INF/container.xml" [Sample.container_xml];
          {| file_path := encode "a.xml"; file_size := 0;
             unzipped_chunks := [encode "<a"; []; encode "/>"] |}].
Proof.
  apply (rechunking_is_invisible Sample.fromstring Sample.html2text).
  repeat constructor; try reflexivity; discriminate.
Defined.

(** ** The publication assembler, again *)

Lemma concatenation_app (texts1 texts2 : list string) :
  concatenation (texts1 ++ texts2)%list
  = concatenation texts1 ++ concatenation texts2.
Proof.
  induction texts1 as [| t rest IH]; simpl; [reflexivity |].
  now rewrite IH, string_app_assoc.
Qed.

(** X3. Dumping distributes over joining text sequences: the dump of
    [texts1 + texts2] is the dump of [texts1] followed by the dump of
    [texts2]; and the length of a dump is the sum of the lengths of the
    texts, nothing being added or lost. *)
Theorem dump_contents_app (texts1 texts2 : list string) :
  dump_contents {| texts := (texts1 ++ texts2)%list |}
  = dump_contents {| texts := texts1 |} ++ dump_contents {| texts := texts2 |}
  /\ String.length (dump_contents {| texts := texts1 |})
     = list_sum (map String.length texts1).
Proof.
  unfold dump_contents. simpl. rewrite !dump_loop_concatenation. simpl.
  split; [apply concatenation_app |].
  induction texts1 as [| t rest IH]; simpl; [reflexivity |].
  now rewrite string_length_app, IH.
Qed.

(** ** Media types and parsing, again *)

(** X5. [fix_mediatype] is idempotent, never returns [image/jpg], keeps
    a missing media type missing, and returns
    [application/xhtml+xml] for that media type only: the alias rewrite
    has no bearing on which manifest items are content documents. *)
Theorem fix_mediatype_idempotent (mediatype : option string) :
  fix_mediatype (fix_mediatype mediatype) = fix_mediatype mediatype
  /\ fix_mediatype mediatype <> Some "image/jpg"
  /\ (fix_mediatype mediatype = Some "application/xhtml+xml"
      <-> mediatype = Some "application/xhtml+xml")
  /\ (fix_mediatype mediatype = None <-> mediatype = None).
Proof.
  split; [| split; [| split; [apply fix_mediatype_content |]]];
    unfold fix_mediatype;
    destruct (option_eqb mediatype (Some "image/jpg")) eqn:Hjpg;
    try reflexivity; try discriminate.
  - now rewrite Hjpg.
  - intros H. rewrite H in Hjpg. discriminate.
  - apply option_eqb_Some in Hjpg. subst. split; discriminate.
Qed.

(** X10. The decode-then-encode step of [parse_as_etree] is a UTF-8
    gate: bytes that are not UTF-8 raise [UnicodeDecodeError] without
    reaching the parser, and the parser is handed all other bytes
    unchanged.  [extract_root_path] then passes on what the parser
    raises, raises [AttributeError] when the parser returns no element,
    and reads the rootfiles off the tree otherwise. *)
Theorem parse_as_etree_utf8_gate fromstring (xml_data : list byte) :
  parse_as_etree fromstring xml_data
  = (if Utf8.valid xml_data then fromstring xml_data
     else Raise UnicodeDecodeError)
  /\ extract_root_path fromstring xml_data
     = (if Utf8.valid xml_data then
          match fromstring xml_data with
          | Ok (Some tree) => Ok (extract_root_path_of_tree tree)
          | Ok None => Raise AttributeError
          | Raise x => Raise x
          end
        else Raise UnicodeDecodeError).
Proof.
  assert (Hparse : parse_as_etree fromstring xml_data
                   = (if Utf8.valid xml_data then fromstring xml_data
                      else Raise UnicodeDecodeError)).
  { unfold parse_as_etree, decode, encode.
    destruct (Utf8.valid xml_data); simpl; [| reflexivity].
    now rewrite list_byte_of_string_of_list_byte. }
  split; [exact Hparse |].
  unfold extract_root_path. rewrite Hparse.
  destruct (Utf8.valid xml_data); simpl; [| reflexivity].
  destruct (fromstring xml_data) as [[tree |] | x]; reflexivity.
Qed.

(** ** The path normalizer, again *)

Lemma split_nonempty (sep : ascii) (s : string) : PyStr.split sep s <> [].
Proof.
  destruct s as [| c s]; simpl; [discriminate |].
  destruct (Ascii.eqb c sep); [discriminate |].
  destruct (PyStr.split sep s); discriminate.
Qed.

(** Joining what [split] returned gives the string back. *)
Lemma join_split (sep : ascii) (s : string) :
  PyStr.join (String sep "") (PyStr.split sep s) = s.
Proof.
  unfold PyStr.join. induction s as [| c s IH]; simpl; [reflexivity |].
  destruct (Ascii.eqb c sep) eqn:Hc.
  - apply Ascii.eqb_eq in Hc. subst c.
    pose proof (split_nonempty sep s) as Hne.
    destruct (PyStr.split sep s) as [| w ws]; [congruence |].
    simpl in *. now rewrite IH.
  - pose proof (split_nonempty sep s) as Hne.
    destruct (PyStr.split sep s) as [| w ws]; [congruence |].
    simpl in *. destruct ws; simpl in *; now rewrite <- IH.
Qed.

Lemma split_segment_first (dir rest : string) :
  no_slash dir = true ->
  PyStr.split "/" (dir ++ String "/" rest) = dir :: PyStr.split "/" rest.
Proof.
  intros Hdir. induction dir as [| c dir IH]; simpl in *.
  - reflexivity.
  - apply andb_true_iff in Hdir. destruct Hdir as [Hc Hdir].
    apply negb_true_iff in Hc. rewrite Hc, (IH Hdir). reflexivity.
Qed.

Lemma split_single_segment (s : string) :
  no_slash s = true -> PyStr.split "/" s = [s].
Proof.
  induction s as [| c s IH]; simpl; [reflexivity |].
  intros H. apply andb_true_iff in H. destruct H as [Hc Hs].
  apply negb_true_iff in Hc. now rewrite Hc, (IH Hs).
Qed.

Lemma string_app_inv_head (s t u : string) : s ++ t = s ++ u -> t = u.
Proof.
  induction s as [| c s IH]; simpl; intros H; [exact H |].
  inversion H. auto.
Qed.

Lemma setitem_new {V : Type} (d : list (string * V)) (k : string) (v : V) :
  ~ In k (PyDict.keys d) -> PyDict.setitem d k v = (d ++ [(k, v)])%list.
Proof.
  induction d as [| [k0 v0] d IH]; simpl; intros Hnotin; [reflexivity |].
  destruct (String.eqb k0 k) eqn:Hk0.
  - apply String.eqb_eq in Hk0. tauto.
  - rewrite IH; [reflexivity | tauto].
Qed.

(** [dict(pairs)] of pairs with distinct keys is the list of pairs. *)
Lemma of_pairs_loop_distinct {V : Type} (pairs d : list (string * V)) :
  NoDup (PyDict.keys (d ++ pairs)%list) ->
  fold_left (fun d kv => PyDict.setitem d (fst kv) (snd kv)) pairs d
  = (d ++ pairs)%list.
Proof.
  revert d. induction pairs as [| [k v] pairs IH]; intros d Hnd; simpl.
  - now rewrite app_nil_r.
  - assert (Hnotin : ~ In k (PyDict.keys d)).
    { unfold PyDict.keys in Hnd. rewrite map_app in Hnd. simpl in Hnd.
      apply NoDup_remove_2 in Hnd. intros Hin. apply Hnd.
      apply in_or_app. now left. }
    rewrite (setitem_new _ _ _ Hnotin), IH, <- app_assoc; [reflexivity |].
    now rewrite <- app_assoc.
Qed.

Lemma wrap_files_rekeyed (dir : string) (files : PyDict.dict (list byte)) :
  no_slash dir = true ->
  map strip_first_segment (filter has_subpath (wrap_files dir files)) = files.
Proof.
  intros Hdir. induction files as [| [k v] files IH]; simpl; [reflexivity |].
  unfold has_subpath at 1. simpl fst.
  rewrite (split_segment_first dir k Hdir). simpl.
  pose proof (split_nonempty "/" k) as Hne.
  destruct (PyStr.split "/" k) as [| w ws] eqn:Hsplit; [congruence |].
  simpl. rewrite IH. f_equal.
  unfold strip_first_segment. simpl fst. simpl snd.
  rewrite (split_segment_first dir k Hdir). simpl tl.
  now rewrite Hsplit, <- Hsplit, join_split.
Qed.

Lemma wrap_files_NoDup (dir : string) (files : PyDict.dict (list byte)) :
  NoDup (PyDict.keys files) -> NoDup (PyDict.keys (wrap_files dir files)).
Proof.
  unfold PyDict.keys, wrap_files. rewrite map_map. simpl.
  intros Hnd. induction files as [| [k v] files IH]; simpl in *.
  - constructor.
  - inversion Hnd as [| ? ? Hnotin Hnd']; subst. constructor; [| auto].
    intros Hin. apply in_map_iff in Hin. destruct Hin as [[k' v'] [Heq Hin]].
    simpl in Heq. apply string_app_inv_head in Heq. inversion Heq; subst.
    apply Hnotin. change k with (fst (k, v')). now apply in_map.
Qed.

(** X4. Normalization undoes one level of wrapping.  Take a file map
    with distinct keys, put every key under one directory [dir] (a name
    without slash), and let the first rootfile not be a key of the
    wrapped map: [normalize_path] returns the original map, same entries
    in the same order. *)
Theorem normalize_path_unwraps (first : string) (rest : list string)
        (dir : string) (files : PyDict.dict (list byte)) :
  no_slash dir = true ->
  NoDup (PyDict.keys files) ->
  PyDict.contains (wrap_files dir files) first = false ->
  normalize_path (first :: rest) (wrap_files dir files) = Ok files.
Proof.
  intros Hdir Hnd Hout. simpl. rewrite Hout.
  rewrite (normalize_loop_pairs (wrap_files dir files) (wrap_files dir files));
    [| now apply wrap_files_NoDup | apply incl_refl].
  rewrite (wrap_files_rekeyed dir files Hdir).
  now rewrite of_pairs_loop_distinct.
Qed.

Lemma normalize_path_unwraps_witness :
  normalize_path ["OEBPS/content.opf"]
                 (wrap_files "book" Sample.plain_files)
  = Ok Sample.plain_files.
Proof.
  apply (normalize_path_unwraps "OEBPS/content.opf" [] "book"
                                Sample.plain_files).
  - reflexivity.
  - repeat constructor; simpl; intros H;
      repeat (destruct H as [H | H]; [discriminate |]); exact H.
  - reflexivity.
Defined.

(** ** The container resolver, again *)

Lemma root_paths_of_descendants (tree : element) :
  extract_root_path_of_tree tree
  = map full_path (filter declares_path (iterdescendants tree)).
Proof.
  unfold extract_root_path_of_tree, findall_descendants_with_attr.
  rewrite root_path_loop_spec, filter_twice. simpl. f_equal.
  apply filter_ext. intros e.
  unfold declares_path, is_package_rootfile, has_attr.
  destruct (String.eqb (tag e) (qname NS_CONTAINERS "rootfile")); simpl;
    [| reflexivity].
  destruct (get e "media-type") as [m |]; simpl; [| reflexivity].
  destruct (get e "full-path"); simpl; [| now rewrite andb_false_r].
  now rewrite andb_true_r.
Qed.

(** X6. The rootfiles of a container are gathered depth first, left to
    right: those of a tree are, child after child, the path the child
    declares by itself followed by the rootfiles found below the child.
    The root element contributes nothing of its own, whatever its tag
    and attributes, and a tree without children declares nothing. *)
Theorem extract_root_path_document_order (root_tag : string)
        (root_attrib : list (string * string)) (cs : list element) :
  extract_root_path_of_tree (Element root_tag root_attrib cs)
  = flat_map (fun c => own_root_path c ++ extract_root_path_of_tree c)%list
             cs
  /\ extract_root_path_of_tree (Element root_tag root_attrib []) = [].
Proof.
  split; [| reflexivity].
  rewrite root_paths_of_descendants. unfold iterdescendants. simpl children.
  induction cs as [| c rest IH]; simpl; [reflexivity |].
  rewrite filter_app, map_app, IH. f_equal.
  rewrite iter_unfold, root_paths_of_descendants. simpl.
  unfold own_root_path. now destruct (declares_path c).
Qed.

(** ** The manifest parser, again *)

Lemma traverse_ext_in {A B : Type} (f g : A -> result B) (l : list A) :
  (forall a, In a l -> f a = g a) -> traverse f l = traverse g l.
Proof.
  induction l as [| a l IH]; intros H; simpl; [reflexivity |].
  rewrite (H a (or_introl eq_refl)), IH; [reflexivity |].
  intros a' Hin. apply H. now right.
Qed.

Lemma traverse_is_ok {A B : Type} (f : A -> result B) (l : list A) :
  is_ok (traverse f l) = true <-> Forall (fun a => is_ok (f a) = true) l.
Proof.
  induction l as [| a l IH]; simpl.
  - split; [constructor | reflexivity].
  - destruct (f a) as [b | x] eqn:Ha; simpl.
    + destruct (traverse f l) as [bs | x]; simpl in *.
      * split; [| reflexivity]. intros _. constructor.
        -- now rewrite Ha.
        -- now apply IH.
      * split; [discriminate |]. intros H. inversion H; subst.
        now apply IH.
    + split; [discriminate |]. intros H. inversion H as [| ? ? Hok _]; subst.
      rewrite Ha in Hok. discriminate.
Qed.

Lemma traverse_failure_origin {A B : Type} (f : A -> result B) (l : list A)
      (x : exception) :
  traverse f l = Raise x -> exists a, In a l /\ f a = Raise x.
Proof.
  induction l as [| a l IH]; simpl; [discriminate |].
  destruct (f a) as [b | y] eqn:Ha; simpl.
  - destruct (traverse f l) as [bs | y]; simpl; [discriminate |].
    intros H. inversion H; subst.
    destruct (IH eq_refl) as [a' [Hin Ha']]. exists a'. auto.
  - intros H. inversion H; subst. exists a. auto.
Qed.

Lemma extract_textfiles_of_tree_exception html2text (tree : element)
      (files : PyDict.dict (list byte)) (root_dir : string) (x : exception) :
  extract_textfiles_of_tree html2text tree files root_dir = Raise x ->
  x = MalformedEpubException "Rootfile has no manifest"
  \/ x = UnicodeDecodeError
  \/ exists key, x = KeyError key /\ PyDict.contains files key = false.
Proof.
  intros Hraise.
  destruct (find tree (qname NS_OPF "manifest")) as [manifest |] eqn:Hfind.
  - right.
    rewrite (extract_textfiles_of_tree_spec _ _ _ _ _ Hfind) in Hraise.
    apply bind_Raise_inv in Hraise.
    destruct Hraise as [Hraise | [converted [_ Hraise]]]; [| discriminate].
    apply traverse_failure_origin in Hraise.
    destruct Hraise as [item [_ Hitem]].
    apply content_text_failure in Hitem.
    destruct Hitem as [Hx | [Hx Hd]]; [now left | right].
    exists (lookup_key root_dir item). split; [exact Hx |].
    unfold dangling in Hd. now apply negb_true_iff in Hd.
  - unfold extract_textfiles_of_tree in Hraise. rewrite Hfind in Hraise.
    inversion Hraise. now left.
Qed.

(** X7. [extract_textfiles] raises its structural error, "Rootfile has no
    manifest", exactly when no child of the root element carries the OPF
    [manifest] tag: a manifest placed deeper in the tree is not looked
    for, and the file map and the root directory play no part. *)
Theorem no_manifest_child_is_malformed html2text (tree : element)
        (files : PyDict.dict (list byte)) (root_dir : string) :
  extract_textfiles_of_tree html2text tree files root_dir
  = Raise (MalformedEpubException "Rootfile has no manifest")
  <-> Forall (fun c => tag c <> qname NS_OPF "manifest") (children tree).
Proof.
  split.
  - intros Hraise. apply Forall_forall. intros c Hin Htag.
    destruct (find tree (qname NS_OPF "manifest")) as [manifest |] eqn:Hfind.
    + rewrite (extract_textfiles_of_tree_spec _ _ _ _ _ Hfind) in Hraise.
      apply bind_Raise_inv in Hraise.
      destruct Hraise as [Hraise | [converted [_ Hraise]]]; [| discriminate].
      apply traverse_failure_origin in Hraise.
      destruct Hraise as [item [_ Hitem]].
      apply content_text_failure in Hitem.
      destruct Hitem as [Hx | [Hx _]]; discriminate.
    + unfold find in Hfind.
      apply (find_none _ _ Hfind) in Hin.
      apply String.eqb_neq in Hin. contradiction.
  - intros Hall. unfold extract_textfiles_of_tree.
    destruct (find tree (qname NS_OPF "manifest")) as [manifest |] eqn:Hfind;
      [| reflexivity].
    apply find_tag in Hfind. destruct Hfind as [Htag Hin].
    rewrite Forall_forall in Hall. now apply Hall in Hin.
Qed.

(** X8. With a manifest in place, [extract_textfiles] returns an Epub
    exactly when every selected content item is in the file map with
    bytes that decode; and whatever it raises is the no-manifest
    error, a [UnicodeDecodeError], or the [KeyError] of a key the map
    lacks, nothing else. *)
Theorem extract_textfiles_outcome html2text (tree : element)
        (files : PyDict.dict (list byte)) (root_dir : string) :
  (forall manifest,
      find tree (qname NS_OPF "manifest") = Some manifest ->
      (is_ok (extract_textfiles_of_tree html2text tree files root_dir) = true
       <-> Forall (fun item =>
                     exists contents,
                       PyDict.get files (lookup_key root_dir item)
                       = Some contents
                       /\ Utf8.valid contents = true)
                  (selected_items manifest)))
  /\ (forall x,
         extract_textfiles_of_tree html2text tree files root_dir = Raise x ->
         x = MalformedEpubException "Rootfile has no manifest"
         \/ x = UnicodeDecodeError
         \/ exists key,
             x = KeyError key /\ PyDict.contains files key = false).
Proof.
  split.
  - intros manifest Hfind.
    rewrite (extract_textfiles_of_tree_spec _ _ _ _ _ Hfind).
    assert (Hbind : forall c : result (list string),
               is_ok (converted <- c ;; Ok {| texts := converted |})
               = is_ok c) by (intros [l | x]; reflexivity).
    rewrite Hbind, traverse_is_ok, !Forall_forall.
    split; intros H item Hin; specialize (H item Hin);
      unfold content_text, PyDict.getitem, decode in *;
      destruct (PyDict.get files (lookup_key root_dir item)) as [contents |].
    + simpl in H. destruct (Utf8.valid contents) eqn:Hvalid;
        [eauto | discriminate].
    + discriminate.
    + destruct H as [contents' [Hget Hvalid]]. inversion Hget; subst.
      simpl. now rewrite Hvalid.
    + destruct H as [contents' [Hget _]]. discriminate.
  - intros x. apply extract_textfiles_of_tree_exception.
Qed.

Lemma extract_textfiles_outcome_witness :
  is_ok (extract_textfiles_of_tree Sample.html2text Sample.opf_tree
                                   Sample.plain_files "OEBPS") = true.
Proof.
  apply (proj1 (extract_textfiles_outcome Sample.html2text Sample.opf_tree
                  Sample.plain_files "OEBPS") Sample.manifest_tree eq_refl).
  repeat constructor; eexists; split; reflexivity.
Defined.

(** X9. [extract_textfiles] reads the file map at the keys of the
    selected content items and nowhere else: two maps that agree on
    those keys give the same result, Epub or exception. *)
Theorem extract_textfiles_reads_selected_keys html2text
        (tree manifest : element) (files1 files2 : PyDict.dict (list byte))
        (root_dir : string) :
  find tree (qname NS_OPF "manifest") = Some manifest ->
  (forall item,
      In item (selected_items manifest) ->
      PyDict.get files1 (lookup_key root_dir item)
      = PyDict.get files2 (lookup_key root_dir item)) ->
  extract_textfiles_of_tree html2text tree files1 root_dir
  = extract_textfiles_of_tree html2text tree files2 root_dir.
Proof.
  intros Hfind Hagree.
  rewrite !(extract_textfiles_of_tree_spec _ _ _ _ _ Hfind).
  rewrite (traverse_ext_in (content_text html2text files1 root_dir)
                           (content_text html2text files2 root_dir));
    [reflexivity |].
  intros item Hin. unfold content_text, PyDict.getitem.
  now rewrite (Hagree item Hin).
Qed.

Lemma extract_textfiles_reads_selected_keys_witness :
  extract_textfiles_of_tree Sample.html2text Sample.opf_tree
                            Sample.plain_files "OEBPS"
  = extract_textfiles_of_tree Sample.html2text Sample.opf_tree
      [("OEBPS/ch1.xhtml", encode Sample.ch1_xhtml);
       ("OEBPS/style.css", encode "body { margin: 0 }");
       ("OEBPS/toc.xhtml", encode Sample.toc_xhtml)]
      "OEBPS".
Proof.
  apply (extract_textfiles_reads_selected_keys
           Sample.html2text Sample.opf_tree Sample.manifest_tree).
  - reflexivity.
  - intros item [H | [H | []]]; subst item; reflexivity.
Defined.

(** ** Uncompressing, again *)

Lemma uncompress_step_files fromstring (fs fs' : PyDict.dict (list byte))
      (rs rs' : list string) (e : entry) :
  uncompress_step fromstring (fs, rs) e = Ok (fs', rs') ->
  fs' = match kept_member e with
        | Some kv => PyDict.setitem fs (fst kv) (snd kv)
        | None => fs
        end.
Proof.
  unfold uncompress_step, kept_member, is_textfile.
  destruct (decode (file_path e)) as [filepath | x]; simpl; [| discriminate].
  destruct (read_unzipped_chunks (unzipped_chunks e)
              (in_content_filetypes (PyPath.suffix filepath)))
    as [current_bytes |];
    destruct (String.eqb (PyPath.basename filepath) "container.xml");
    intros H; try (now inversion H).
  apply bind_Ok_inv in H. destruct H as [rs1 [_ H]]. now inversion H.
Qed.

Lemma uncompress_loop_files fromstring (stream : list entry)
      (fs fs' : PyDict.dict (list byte)) (rs rs' : list string) :
  uncompress_loop fromstring stream (fs, rs) = Ok (fs', rs') ->
  fs' = fold_left (fun d kv => PyDict.setitem d (fst kv) (snd kv))
                  (kept_members stream) fs.
Proof.
  revert fs rs. induction stream as [| e rest IH]; intros fs rs H; simpl in H.
  - now inversion H.
  - apply bind_Ok_inv in H. destruct H as [[fs1 rs1] [Hstep Hrest]].
    apply uncompress_step_files in Hstep. apply IH in Hrest.
    unfold kept_members. simpl. rewrite fold_left_app.
    fold (kept_members rest). rewrite Hrest, Hstep.
    now destruct (kept_member e).
Qed.

Lemma kept_member_is_text (e : entry) (k : string) (v : list byte) :
  kept_member e = Some (k, v) ->
  is_textfile k = true /\ PyPath.basename k <> "container.xml".
Proof.
  unfold kept_member.
  destruct (decode (file_path e)) as [filepath | x]; [| discriminate].
  destruct (String.eqb (PyPath.basename filepath) "container.xml") eqn:Hname;
    [discriminate |].
  rewrite read_unzipped_chunks_spec.
  destruct (is_textfile filepath) eqn:Htext; simpl; [| discriminate].
  destruct (Nat.eqb (List.length (unzipped_chunks e)) 0); simpl;
    [discriminate |].
  intros H. inversion H; subst. split; [exact Htext |].
  now apply String.eqb_neq.
Qed.

Lemma keys_of_pairs_loop {V : Type} (pairs d : list (string * V))
      (k : string) :
  In k (PyDict.keys
          (fold_left (fun d kv => PyDict.setitem d (fst kv) (snd kv))
                     pairs d)) ->
  In k (PyDict.keys d) \/ In k (map fst pairs).
Proof.
  revert d. induction pairs as [| [k0 v0] pairs IH]; intros d H; simpl in *.
  - now left.
  - apply IH in H. destruct H as [H | H]; [| tauto].
    rewrite keys_setitem in H. destruct (PyDict.contains d k0); [tauto |].
    apply in_app_or in H. simpl in H. tauto.
Qed.

Lemma normalize_path_total (first : string) (rest : list string)
      (files : PyDict.dict (list byte)) :
  NoDup (PyDict.keys files) ->
  exists normalized,
    normalize_path (first :: rest) files = Ok normalized
    /\ NoDup (PyDict.keys normalized).
Proof.
  intros Hnd. simpl. destruct (PyDict.contains files first).
  - exists files. auto.
  - rewrite (normalize_loop_pairs files files []);
      [| exact Hnd | apply incl_refl].
    eexists. split; [reflexivity |]. apply of_pairs_loop_NoDup. constructor.
Qed.

(** X11. What [uncompress_epub] returns: the rootfile list is never
    empty, the file map has distinct keys and is [normalize_path]
    applied to the map collected from the archive, which is
    [dict(pairs)] of the kept members in archive order (a path met again
    keeps its place and takes the later bytes); every collected key is
    the path of a text file and none is named [container.xml]. *)
Theorem uncompress_epub_result fromstring (stream : list entry)
        (uncompressed_epub : UncompressedEpub) :
  uncompress_epub fromstring stream = Ok uncompressed_epub ->
  rootfiles uncompressed_epub <> []
  /\ NoDup (PyDict.keys (files uncompressed_epub))
  /\ normalize_path (rootfiles uncompressed_epub)
                    (PyDict.of_pairs (kept_members stream))
     = Ok (files uncompressed_epub)
  /\ (forall key,
         In key (PyDict.keys (PyDict.of_pairs (kept_members stream))) ->
         is_textfile key = true /\ PyPath.basename key <> "container.xml").
Proof.
  unfold uncompress_epub. intros H. apply bind_Ok_inv in H.
  destruct H as [[fs rs] [Hloop H]].
  apply uncompress_loop_files in Hloop.
  fold (PyDict.of_pairs (kept_members stream)) in Hloop.
  destruct rs as [| first rest]; [discriminate |]. simpl Nat.eqb in H.
  cbv iota in H. apply bind_Ok_inv in H. destruct H as [normalized [Hn H]].
  inversion H; subst uncompressed_epub; simpl. clear H.
  assert (Hnd : NoDup (PyDict.keys fs))
    by (rewrite Hloop; apply of_pairs_loop_NoDup; constructor).
  split; [discriminate | split; [| split]].
  - destruct (normalize_path_total first rest fs Hnd) as [n' [Hn' Hnd']].
    rewrite Hn in Hn'. now inversion Hn'; subst.
  - now rewrite <- Hloop.
  - intros key Hin. unfold PyDict.of_pairs in Hin.
    apply keys_of_pairs_loop in Hin. destruct Hin as [[] | Hin].
    apply in_map_iff in Hin. destruct Hin as [[k v] [Hk Hin]].
    simpl in Hk. subst k. unfold kept_members in Hin.
    apply in_flat_map in Hin. destruct Hin as [e [_ Hin]].
    destruct (kept_member e) as [[k' v'] |] eqn:Hkept; [| contradiction].
    destruct Hin as [Heq | []]. inversion Heq; subst.
    eapply kept_member_is_text. exact Hkept.
Qed.

Lemma uncompress_epub_result_witness :
  normalize_path ["OEBPS/content.opf"]
                 (PyDict.of_pairs (kept_members Sample.stream))
  = Ok Sample.plain_files.
Proof.
  apply (proj1 (proj2 (proj2
           (uncompress_epub_result Sample.fromstring Sample.stream
              {| rootfiles := ["OEBPS/content.opf"];
                 files := Sample.plain_files |} eq_refl)))).
Defined.

Lemma extract_root_path_raises fromstring (data : list byte) (x : exception) :
  extract_root_path fromstring data = Raise x ->
  x = UnicodeDecodeError \/ x = AttributeError
  \/ exists text, fromstring text = Raise x.
Proof.
  unfold extract_root_path, parse_as_etree, decode.
  destruct (Utf8.valid data); simpl; [| intros H; inversion H; now left].
  destruct (fromstring (encode (string_of_list_byte data)))
    as [[tree |] | y] eqn:Hparse; simpl; intros H; inversion H; subst.
  - right. now left.
  - right. right. eauto.
Qed.

Lemma uncompress_loop_raises fromstring (stream : list entry) st
      (x : exception) :
  uncompress_loop fromstring stream st = Raise x ->
  x = UnicodeDecodeError \/ x = AttributeError
  \/ exists text, fromstring text = Raise x.
Proof.
  revert st. induction stream as [| e rest IH]; intros st H; simpl in H;
    [discriminate |].
  apply bind_Raise_inv in H. destruct H as [H | [st' [_ H]]]; [| eauto].
  unfold uncompress_step in H. destruct st as [fs rs].
  apply bind_Raise_inv in H. destruct H as [H | [filepath [_ H]]].
  - unfold decode in H. destruct (Utf8.valid (file_path e)); inversion H.
    now left.
  - destruct (read_unzipped_chunks (unzipped_chunks e)
                (in_content_filetypes (PyPath.suffix filepath)));
      [| discriminate].
    destruct (String.eqb (PyPath.basename filepath) "container.xml");
      [| discriminate].
    apply bind_Raise_inv in H. destruct H as [H | [rs' [_ H]]];
      [| discriminate].
    now apply extract_root_path_raises in H.
Qed.

Lemma uncompress_epub_exception fromstring (stream : list entry)
      (x : exception) :
  uncompress_epub fromstring stream = Raise x ->
  raised_by_uncompress x \/ exists text, fromstring text = Raise x.
Proof.
  unfold uncompress_epub, raised_by_uncompress. intros H.
  apply bind_Raise_inv in H. destruct H as [H | [[fs rs] [Hloop H]]].
  - apply uncompress_loop_raises in H. tauto.
  - destruct rs as [| first rest]; simpl in H.
    + inversion H. tauto.
    + apply uncompress_loop_files in Hloop.
      destruct (normalize_path_total first rest fs) as [normalized [Hn _]].
      * rewrite Hloop. apply of_pairs_loop_NoDup. constructor.
      * simpl in Hn. rewrite Hn in H. discriminate.
Qed.

(** ** Reading, again *)

Lemma extract_textfiles_exception fromstring html2text (rootfile : list byte)
      (files : PyDict.dict (list byte)) (root_dir : string) (x : exception) :
  extract_textfiles fromstring html2text rootfile files root_dir = Raise x ->
  raised_by_read x \/ exists text, fromstring text = Raise x.
Proof.
  unfold extract_textfiles, parse_as_etree, decode, raised_by_read,
    raised_by_uncompress.
  destruct (Utf8.valid rootfile); simpl;
    [| intros H; inversion H; tauto].
  destruct (fromstring (encode (string_of_list_byte rootfile)))
    as [[tree |] | y] eqn:Hparse; simpl; intros H.
  - apply extract_textfiles_of_tree_exception in H.
    destruct H as [H | [H | [key [H _]]]]; subst; eauto 6.
  - inversion H. tauto.
  - inversion H; subst. eauto.
Qed.

(** X12. The exceptions of the reader.  [uncompress_epub] raises the
    no-rootfile [MalformedEpubException], [UnicodeDecodeError] (a member
    path or a container that is not UTF-8), [AttributeError] (the parser
    returned no element) or what the parser raises: the indexing
    [rootfiles[0]] and the lookups of [normalize_path] never fail there.
    [read] adds the no-manifest [MalformedEpubException] and [KeyError],
    and nothing else. *)
Theorem reader_exceptions fromstring html2text (stream : list entry)
        (x : exception) :
  (uncompress_epub fromstring stream = Raise x ->
   raised_by_uncompress x \/ exists text, fromstring text = Raise x)
  /\ (read fromstring html2text stream = Raise x ->
      raised_by_read x \/ exists text, fromstring text = Raise x).
Proof.
  split; [apply uncompress_epub_exception |].
  unfold read. intros H. apply bind_Raise_inv in H.
  destruct H as [H | [uncompressed_epub [_ H]]].
  - apply uncompress_epub_exception in H. unfold raised_by_read. tauto.
  - rewrite read_uncompressed_epubs_spec in H.
    apply traverse_failure_origin in H.
    destruct H as [rootfile_path [_ H]]. unfold publication_of in H.
    apply bind_Raise_inv in H. destruct H as [H | [rootfile [_ H]]].
    + unfold PyDict.getitem in H.
      destruct (PyDict.get (files uncompressed_epub) rootfile_path);
        inversion H.
      left. right. right. eauto.
    + now apply extract_textfiles_exception in H.
Qed.

Lemma reader_exceptions_witness :
  raised_by_read (KeyError "OEBPS/content.opf")
  \/ exists text, Sample.fromstring text = Raise (KeyError "OEBPS/content.opf").
Proof.
  apply (proj2 (reader_exceptions Sample.fromstring Sample.html2text
                  Sample.stream_container_only
                  (KeyError "OEBPS/content.opf"))).
  reflexivity.
Defined.

(** X13. [read] never returns an empty list: when it returns, there is a
    first Epub, extracted from the first declared rootfile. *)
Theorem read_returns_a_publication fromstring html2text
        (stream : list entry) (epubs : list Epub) :
  read fromstring html2text stream = Ok epubs ->
  exists uncompressed_epub first_path other_paths first other_epubs,
    uncompress_epub fromstring stream = Ok uncompressed_epub
    /\ rootfiles uncompressed_epub = first_path :: other_paths
    /\ epubs = first :: other_epubs
    /\ publication_of fromstring html2text uncompressed_epub first_path
       = Ok first.
Proof.
  unfold read. intros H. apply bind_Ok_inv in H.
  destruct H as [uncompressed_epub [Hue Hread]].
  rewrite read_uncompressed_epubs_spec in Hread.
  apply traverse_Forall2 in Hread.
  assert (Hpaths : rootfiles uncompressed_epub <> []).
  { unfold uncompress_epub in Hue. apply bind_Ok_inv in Hue.
    destruct Hue as [[fs rs] [_ Hue]].
    destruct rs as [| first rest]; [discriminate |]. simpl in Hue.
    apply bind_Ok_inv in Hue. destruct Hue as [normalized [_ Hue]].
    inversion Hue. discriminate. }
  destruct (rootfiles uncompressed_epub) as [| first_path other_paths]
    eqn:Hrootfiles; [congruence |].
  inversion Hread as [| ? first ? other_epubs Hfirst _]; subst.
  exists uncompressed_epub, first_path, other_paths, first, other_epubs.
  repeat split; assumption.
Qed.

Lemma read_returns_a_publication_witness :
  exists uncompressed_epub first_path other_paths first other_epubs,
    uncompress_epub Sample.fromstring Sample.stream = Ok uncompressed_epub
    /\ rootfiles uncompressed_epub = first_path :: other_paths
    /\ [{| texts := [Sample.toc_xhtml; Sample.ch1_xhtml] |}]
       = first :: other_epubs
    /\ publication_of Sample.fromstring Sample.html2text uncompressed_epub
                      first_path = Ok first.
Proof.
  apply (read_returns_a_publication Sample.fromstring Sample.html2text
           Sample.stream).
  reflexivity.
Defined.

(** X14. The directory against which [read_uncompressed_epubs] resolves
    the hrefs of a rootfile is the first segment of the rootfile path,
    not its parent directory: for [dir/rest] it is [dir] however deep
    [rest] goes, and for a rootfile at the top level of the archive it
    is the name of the rootfile itself. *)
Theorem read_uncompressed_epubs_root_dir fromstring html2text
        (fs : PyDict.dict (list byte)) (dir rest : string)
        (others : list string) :
  no_slash dir = true ->
  read_uncompressed_epubs fromstring html2text
    {| rootfiles := (dir ++ "/" ++ rest) :: others; files := fs |}
  = (rootfile <- PyDict.getitem fs (dir ++ "/" ++ rest) ;;
     epub <- extract_textfiles fromstring html2text rootfile fs dir ;;
     epubs <- read_uncompressed_epubs fromstring html2text
                {| rootfiles := others; files := fs |} ;;
     Ok (epub :: epubs))
  /\ read_uncompressed_epubs fromstring html2text
       {| rootfiles := dir :: others; files := fs |}
     = (rootfile <- PyDict.getitem fs dir ;;
        epub <- extract_textfiles fromstring html2text rootfile fs dir ;;
        epubs <- read_uncompressed_epubs fromstring html2text
                   {| rootfiles := others; files := fs |} ;;
        Ok (epub :: epubs)).
Proof.
  intros Hdir.
  assert (Htail : forall (paths : list string) (epub : Epub),
             publications_loop fromstring html2text
               {| rootfiles := paths; files := fs |} others [epub]
             = (epubs <- read_uncompressed_epubs fromstring html2text
                           {| rootfiles := others; files := fs |} ;;
                Ok (epub :: epubs))).
  { intros paths epub. unfold read_uncompressed_epubs. simpl rootfiles.
    rewrite !publications_loop_spec.
    rewrite (traverse_ext_in
               (publication_of fromstring html2text
                  {| rootfiles := paths; files := fs |})
               (publication_of fromstring html2text
                  {| rootfiles := others; files := fs |}))
      by reflexivity.
    now destruct (traverse _ others). }
  assert (Hhead : forall path segment,
             hd "" (PyStr.split "/" path) = segment ->
             read_uncompressed_epubs fromstring html2text
               {| rootfiles := path :: others; files := fs |}
             = (rootfile <- PyDict.getitem fs path ;;
                epub <- extract_textfiles fromstring html2text rootfile fs
                                          segment ;;
                epubs <- read_uncompressed_epubs fromstring html2text
                           {| rootfiles := others; files := fs |} ;;
                Ok (epub :: epubs))).
  { intros path segment Hsegment. unfold read_uncompressed_epubs at 1.
    cbn [rootfiles publications_loop files]. rewrite Hsegment.
    destruct (PyDict.getitem fs path) as [rootfile | x]; [| reflexivity].
    cbn [bind].
    destruct (extract_textfiles fromstring html2text rootfile fs segment)
      as [epub | x]; [| reflexivity].
    cbn [bind app]. apply Htail. }
  split; apply Hhead.
  - change (dir ++ "/" ++ rest) with (dir ++ String "/" rest).
    now rewrite (split_segment_first dir rest Hdir).
  - now rewrite (split_single_segment dir Hdir).
Qed.

Lemma read_uncompressed_epubs_root_dir_witness :
  read_uncompressed_epubs Sample.fromstring Sample.html2text
    {| rootfiles := ["OEBPS/package/content.opf"];
       files := [("OEBPS/package/content.opf", encode Sample.opf_xml);
                 ("OEBPS/toc.xhtml", encode Sample.toc_xhtml);
                 ("OEBPS/ch1.xhtml", encode Sample.ch1_xhtml)] |}
  = Ok [{| texts := [Sample.toc_xhtml; Sample.ch1_xhtml] |}].
Proof.
  rewrite (proj1 (read_uncompressed_epubs_root_dir
                    Sample.fromstring Sample.html2text _
                    "OEBPS" "package/content.opf" [] eq_refl)).
  reflexivity.
Defined.

Lemma uncompress_step_non_text fromstring st (e : entry) (filepath : string) :
  decode (file_path e) = Ok filepath ->
  is_textfile filepath = false ->
  uncompress_step fromstring st e = Ok st.
Proof.
  intros Hdec Htext. destruct st as [fs rs]. unfold uncompress_step.
  rewrite Hdec. simpl. unfold is_textfile in Htext. rewrite Htext.
  now rewrite read_unzipped_chunks_spec.
Qed.

(** X15. A member that is not a text file (an image, a stylesheet, a
    font) leaves no trace: with or without it, and whatever its bytes,
    the archive is uncompressed and read alike. *)
Theorem non_text_member_is_invisible fromstring html2text
        (before after : list entry) (e : entry) (filepath : string) :
  decode (file_path e) = Ok filepath ->
  is_textfile filepath = false ->
  uncompress_epub fromstring (before ++ e :: after)
  = uncompress_epub fromstring (before ++ after)
  /\ read fromstring html2text (before ++ e :: after)
     = read fromstring html2text (before ++ after).
Proof.
  intros Hdec Htext.
  assert (Hue : uncompress_epub fromstring (before ++ e :: after)
                = uncompress_epub fromstring (before ++ after)).
  { unfold uncompress_epub. rewrite !uncompress_loop_app.
    destruct (uncompress_loop fromstring before ([], [])) as [st | x];
      simpl; [| reflexivity].
    now rewrite (uncompress_step_non_text _ _ _ _ Hdec Htext). }
  split; [exact Hue |]. unfold read. now rewrite Hue.
Qed.

Lemma non_text_member_is_invisible_witness :
  read Sample.fromstring Sample.html2text Sample.stream
  = read Sample.fromstring Sample.html2text
         (firstn 5 Sample.stream ++ skipn 6 Sample.stream).
Proof.
  apply (non_text_member_is_invisible Sample.fromstring Sample.html2text
           (firstn 5 Sample.stream) (skipn 6 Sample.stream)
           (Sample.member "OEBPS/style.css" ["body { margin: 0 }"])
           "OEBPS/style.css"); reflexivity.
Defined.

Lemma traverse_app {A B : Type} (f : A -> result B) (l1 l2 : list A) :
  traverse f (l1 ++ l2)
  = (bs1 <- traverse f l1 ;; bs2 <- traverse f l2 ;; Ok (bs1 ++ bs2)%list).
Proof.
  induction l1 as [| a l1 IH]; simpl.
  - now destruct (traverse f l2).
  - destruct (f a) as [b | x]; simpl; [| reflexivity]. rewrite IH.
    destruct (traverse f l1) as [bs1 | x]; simpl; [| reflexivity].
    now destruct (traverse f l2).
Qed.

(** X16. Publications are read one rootfile after the other and
    independently of each other: reading the rootfiles [paths1 + paths2]
    is reading [paths1], then [paths2], over the same file map, and
    joining the two lists; the exception of the earliest failing
    rootfile is the one raised. *)
Theorem read_uncompressed_epubs_app fromstring html2text
        (fs : PyDict.dict (list byte)) (paths1 paths2 : list string) :
  read_uncompressed_epubs fromstring html2text
    {| rootfiles := (paths1 ++ paths2)%list; files := fs |}
  = (epubs1 <- read_uncompressed_epubs fromstring html2text
                 {| rootfiles := paths1; files := fs |} ;;
     epubs2 <- read_uncompressed_epubs fromstring html2text
                 {| rootfiles := paths2; files := fs |} ;;
     Ok (epubs1 ++ epubs2)%list).
Proof.
  rewrite !read_uncompressed_epubs_spec. simpl rootfiles.
  rewrite traverse_app.
  assert (Hsame : forall paths,
             traverse (publication_of fromstring html2text
                         {| rootfiles := (paths1 ++ paths2)%list;
                            files := fs |}) paths
             = traverse (publication_of fromstring html2text
                           {| rootfiles := paths; files := fs |}) paths)
    by (intros paths; apply traverse_ext_in; reflexivity).
  rewrite (Hsame paths1).
  destruct (traverse _ paths1) as [epubs1 | x]; simpl; [| reflexivity].
  assert (Hsame2 : traverse (publication_of fromstring html2text
                               {| rootfiles := (paths1 ++ paths2)%list;
                                  files := fs |}) paths2
                   = traverse (publication_of fromstring html2text
                                 {| rootfiles := paths2; files := fs |})
                              paths2)
    by (apply traverse_ext_in; reflexivity).
  now rewrite Hsame2.
Qed.

(** ** An archive wrapped in a directory *)

Lemma utf8_valid_app (a b : list byte) :
  Utf8.valid a = true -> Utf8.valid (a ++ b)%list = Utf8.valid b.
Proof.
  remember (List.length a) as n eqn:Hn. revert a Hn.
  induction n as [n IH] using lt_wf_ind. intros a Hn Hvalid.
  assert (Hrec : forall r : list byte,
             (List.length r < n)%nat -> Utf8.valid r = true ->
             Utf8.valid (r ++ b)%list = Utf8.valid b)
    by (intros r Hr Hv; now apply (IH (List.length r))).
  destruct a as [| b0 r0]; [reflexivity |].
  simpl in Hvalid, Hn. simpl.
  destruct (Utf8.between 0 127 b0).
  { apply Hrec; [lia | exact Hvalid]. }
  destruct r0 as [| b1 r1]; [discriminate |]. simpl in Hn. simpl.
  destruct (Utf8.between 194 223 b0).
  { apply andb_true_iff in Hvalid. destruct Hvalid as [H1 Hr]. rewrite H1.
    simpl. apply Hrec; [lia | exact Hr]. }
  destruct r1 as [| b2 r2]; [discriminate |]. simpl in Hn. simpl.
  destruct (Utf8.between 224 239 b0).
  { apply andb_true_iff in Hvalid. destruct Hvalid as [H12 Hr]. rewrite H12.
    simpl. apply Hrec; [lia | exact Hr]. }
  destruct r2 as [| b3 r3]; [discriminate |]. simpl in Hn. simpl.
  destruct (Utf8.between 240 244 b0); [| discriminate].
  apply andb_true_iff in Hvalid. destruct Hvalid as [H123 Hr]. rewrite H123.
  simpl. apply Hrec; [lia | exact Hr].
Qed.

Lemma string_of_list_byte_app (a b : list byte) :
  string_of_list_byte (a ++ b)%list
  = string_of_list_byte a ++ string_of_list_byte b.
Proof.
  unfold string_of_list_byte.
  induction a as [| c a IH]; simpl; [reflexivity | now rewrite IH].
Qed.

Lemma decode_wrapped (dir : string) (path : list byte) :
  Utf8.valid (encode dir) = true ->
  decode (encode dir ++ encode "/" ++ path)%list
  = (filepath <- decode path ;; Ok (dir ++ "/" ++ filepath)).
Proof.
  intros Hdir. unfold decode.
  rewrite (utf8_valid_app _ _ Hdir).
  change (Utf8.valid (encode "/" ++ path)%list) with (Utf8.valid path).
  destruct (Utf8.valid path); simpl; [| reflexivity].
  rewrite string_of_list_byte_app. unfold encode at 1.
  now rewrite string_of_list_byte_of_string.
Qed.

Lemma rfind_from_no_slash (s : string) (pos last : Z) :
  no_slash s = true -> PyStr.rfind_from "/" s pos last = last.
Proof.
  revert pos last. induction s as [| c s IH]; intros pos last H; simpl in *.
  - reflexivity.
  - apply andb_true_iff in H. destruct H as [Hc Hs].
    apply negb_true_iff in Hc. rewrite Hc. now apply IH.
Qed.

Lemma last_slash_decomposition (s : string) :
  no_slash s = true
  \/ exists head tail, s = head ++ String "/" tail /\ no_slash tail = true.
Proof.
  induction s as [| c s IH]; [now left |].
  destruct IH as [Hs | [head [tail [Heq Htail]]]].
  - simpl. destruct (Ascii.eqb c "/") eqn:Hc.
    + right. apply Ascii.eqb_eq in Hc. subst c. exists "", s. auto.
    + left. now rewrite Hs.
  - right. exists (String c head), tail. subst s. auto.
Qed.

Lemma basename_no_slash (s : string) :
  no_slash s = true -> PyPath.basename s = s.
Proof.
  intros H. unfold PyPath.basename, PyStr.rfind.
  now rewrite (rfind_from_no_slash _ _ _ H).
Qed.

Lemma basename_after_last_slash (head tail : string) :
  no_slash tail = true -> PyPath.basename (head ++ String "/" tail) = tail.
Proof.
  intros H. unfold PyPath.basename, PyStr.rfind.
  rewrite rfind_from_last_occurrence
    by (intros pos last; now apply rfind_from_no_slash).
  replace (Z.to_nat (0 + Z.of_nat (String.length head) + 1))
    with (String.length (head ++ "/")).
  - change (head ++ String "/" tail) with (head ++ "/" ++ tail).
    rewrite <- string_app_assoc. apply drop_app_length.
  - rewrite string_length_app. simpl. lia.
Qed.

Lemma basename_wrapped (dir path : string) :
  PyPath.basename (dir ++ "/" ++ path) = PyPath.basename path.
Proof.
  destruct (last_slash_decomposition path) as [H | [head [tail [Heq H]]]].
  - rewrite (basename_no_slash _ H).
    now apply (basename_after_last_slash dir path).
  - subst path. rewrite (basename_after_last_slash head tail H).
    change (dir ++ "/" ++ head ++ String "/" tail)
      with (dir ++ ("/" ++ head) ++ String "/" tail).
    rewrite <- string_app_assoc.
    now apply basename_after_last_slash.
Qed.

Lemma last_app_nonempty {A : Type} (l1 l2 : list A) (d : A) :
  l2 <> [] -> last (l1 ++ l2) d = last l2 d.
Proof.
  intros Hne. induction l1 as [| a l1 IH]; simpl; [reflexivity |].
  destruct (l1 ++ l2)%list eqn:Happ; [| exact IH].
  apply app_eq_nil in Happ. tauto.
Qed.

Lemma suffix_wrapped (dir path : string) :
  no_slash dir = true ->
  PyPath.tail_parts path <> [] ->
  PyPath.suffix (dir ++ "/" ++ path) = PyPath.suffix path.
Proof.
  intros Hdir Hparts.
  assert (Hname : PyPath.name (dir ++ "/" ++ path) = PyPath.name path).
  { unfold PyPath.name, PyPath.tail_parts in *.
    change (dir ++ "/" ++ path) with (dir ++ String "/" path).
    rewrite (split_segment_first dir path Hdir).
    change (dir :: PyStr.split "/" path)
      with ([dir] ++ PyStr.split "/" path)%list.
    rewrite filter_app. now apply last_app_nonempty. }
  unfold PyPath.suffix. now rewrite Hname.
Qed.

Lemma eqb_wrapped (dir k k' : string) :
  String.eqb (dir ++ "/" ++ k') (dir ++ "/" ++ k) = String.eqb k' k.
Proof.
  destruct (String.eqb k' k) eqn:Hk.
  - apply String.eqb_eq in Hk. subst. apply String.eqb_refl.
  - apply String.eqb_neq. apply String.eqb_neq in Hk. intros Heq.
    apply string_app_inv_head in Heq. inversion Heq. contradiction.
Qed.

Lemma setitem_wrapped (dir : string) (fs : PyDict.dict (list byte))
      (k : string) (v : list byte) :
  PyDict.setitem (wrap_files dir fs) (dir ++ "/" ++ k) v
  = wrap_files dir (PyDict.setitem fs k v).
Proof.
  induction fs as [| [k0 v0] fs IH]; simpl; [reflexivity |].
  change (dir ++ String "/" k0) with (dir ++ "/" ++ k0).
  change (dir ++ String "/" k) with (dir ++ "/" ++ k).
  rewrite eqb_wrapped. destruct (String.eqb k0 k); simpl; [reflexivity |].
  f_equal. exact IH.
Qed.

Lemma uncompress_step_wrapped fromstring (dir : string)
      (fs : PyDict.dict (list byte)) (rs : list string) (e : entry) :
  no_slash dir = true ->
  Utf8.valid (encode dir) = true ->
  (forall filepath,
      decode (file_path e) = Ok filepath ->
      PyPath.tail_parts filepath <> []) ->
  uncompress_step fromstring (wrap_files dir fs, rs) (wrap_member dir e)
  = (st <- uncompress_step fromstring (fs, rs) e ;;
     Ok (wrap_files dir (fst st), snd st)).
Proof.
  intros Hdir Hvalid Hparts. unfold uncompress_step.
  cbn [wrap_member file_path unzipped_chunks].
  rewrite (decode_wrapped dir _ Hvalid).
  destruct (decode (file_path e)) as [filepath | x]; simpl; [| reflexivity].
  change (dir ++ String "/" filepath) with (dir ++ "/" ++ filepath).
  rewrite basename_wrapped, (suffix_wrapped dir filepath Hdir);
    [| now apply Hparts].
  destruct (read_unzipped_chunks (unzipped_chunks e)
              (in_content_filetypes (PyPath.suffix filepath)))
    as [current_bytes |]; [| reflexivity].
  destruct (String.eqb (PyPath.basename filepath) "container.xml").
  - now destruct (extract_root_path fromstring current_bytes).
  - cbn [bind fst snd]. now rewrite setitem_wrapped.
Qed.

Lemma uncompress_loop_wrapped fromstring (dir : string)
      (stream : list entry) (fs : PyDict.dict (list byte))
      (rs : list string) :
  no_slash dir = true ->
  Utf8.valid (encode dir) = true ->
  Forall (fun e => forall filepath,
              decode (file_path e) = Ok filepath ->
              PyPath.tail_parts filepath <> []) stream ->
  uncompress_loop fromstring (map (wrap_member dir) stream)
                  (wrap_files dir fs, rs)
  = (st <- uncompress_loop fromstring stream (fs, rs) ;;
     Ok (wrap_files dir (fst st), snd st)).
Proof.
  intros Hdir Hvalid Hall. revert fs rs.
  induction Hall as [| e rest He _ IH]; intros fs rs.
  - reflexivity.
  - change (uncompress_loop fromstring (map (wrap_member dir) (e :: rest))
              (wrap_files dir fs, rs))
      with (st' <- uncompress_step fromstring (wrap_files dir fs, rs)
                     (wrap_member dir e) ;;
            uncompress_loop fromstring (map (wrap_member dir) rest) st').
    rewrite (uncompress_step_wrapped _ _ _ _ _ Hdir Hvalid He).
    change (uncompress_loop fromstring (e :: rest) (fs, rs))
      with (st' <- uncompress_step fromstring (fs, rs) e ;;
            uncompress_loop fromstring rest st').
    destruct (uncompress_step fromstring (fs, rs) e) as [[fs1 rs1] | x];
      simpl; [apply IH | reflexivity].
Qed.

Lemma get_Some_In_keys {V : Type} (d : list (string * V)) (k : string)
      (v : V) :
  PyDict.get d k = Some v -> In k (PyDict.keys d).
Proof.
  induction d as [| [k0 v0] d IH]; simpl; [discriminate |].
  destruct (String.eqb k0 k) eqn:Hk0.
  - apply String.eqb_eq in Hk0. now left.
  - intros H. right. now apply IH.
Qed.

Lemma contains_of_pairs_loop {V : Type} (pairs d : list (string * V))
      (k : string) :
  In k (map fst pairs) ->
  PyDict.contains
    (fold_left (fun d kv => PyDict.setitem d (fst kv) (snd kv)) pairs d) k
  = true.
Proof.
  intros Hin. unfold PyDict.contains. rewrite get_of_pairs_loop.
  destruct (PyDict.get (rev pairs) k) eqn:Hget; [reflexivity |].
  apply get_None_not_key in Hget. exfalso. apply Hget.
  unfold PyDict.keys. rewrite map_rev. now apply -> in_rev.
Qed.

(** X17. An archive wrapped one directory deeper reads like the archive
    itself.  Let every member path name something, let the first
    rootfile be shipped in the archive under its declared path, and put
    all members under one directory [dir] (a name without slash, such
    that no wrapped path coincides with the first rootfile): the wrapped
    archive is uncompressed to the same rootfiles and the same file map,
    and [read] returns the same Epubs. *)
Theorem wrapped_archive_reads_alike fromstring html2text (dir : string)
        (stream : list entry) (uncompressed_epub : UncompressedEpub)
        (first : string) (rest : list string) :
  no_slash dir = true ->
  Utf8.valid (encode dir) = true ->
  Forall (fun e => forall filepath,
              decode (file_path e) = Ok filepath ->
              PyPath.tail_parts filepath <> []) stream ->
  uncompress_epub fromstring stream = Ok uncompressed_epub ->
  rootfiles uncompressed_epub = first :: rest ->
  In first (map fst (kept_members stream)) ->
  (forall path,
      In path (map fst (kept_members stream)) ->
      first <> dir ++ "/" ++ path) ->
  uncompress_epub fromstring (map (wrap_member dir) stream)
  = Ok uncompressed_epub
  /\ read fromstring html2text (map (wrap_member dir) stream)
     = read fromstring html2text stream.
Proof.
  intros Hdir Hvalid Hparts Hue Hrootfiles Hshipped Hfresh.
  assert (Hwrapped : uncompress_epub fromstring (map (wrap_member dir) stream)
                     = Ok uncompressed_epub).
  { unfold uncompress_epub in *.
    apply bind_Ok_inv in Hue. destruct Hue as [[fs rs] [Hloop Hue]].
    change (@nil (string * list byte), @nil string)
      with (wrap_files dir [], @nil string).
    rewrite (uncompress_loop_wrapped _ _ _ _ _ Hdir Hvalid Hparts), Hloop.
    cbn [bind fst snd].
    apply uncompress_loop_files in Hloop.
    assert (Hnd : NoDup (PyDict.keys fs))
      by (rewrite Hloop; apply of_pairs_loop_NoDup; constructor).
    destruct (Nat.eqb (List.length rs) 0); [discriminate |].
    apply bind_Ok_inv in Hue. destruct Hue as [normalized [Hn Hue]].
    inversion Hue; subst uncompressed_epub. simpl in Hrootfiles. subst rs.
    assert (Hin : PyDict.contains fs first = true)
      by (rewrite Hloop; now apply contains_of_pairs_loop).
    simpl in Hn. rewrite Hin in Hn. inversion Hn; subst normalized.
    assert (Hout : PyDict.contains (wrap_files dir fs) first = false).
    { unfold PyDict.contains.
      destruct (PyDict.get (wrap_files dir fs) first) as [v |] eqn:Hget;
        [| reflexivity].
      exfalso. apply get_Some_In_keys in Hget.
      unfold PyDict.keys, wrap_files in Hget. rewrite map_map in Hget.
      apply in_map_iff in Hget. destruct Hget as [[k v'] [Hk Hkin]].
      simpl in Hk. apply (Hfresh k); [| now symmetry].
      assert (Hkeys : In k (PyDict.keys fs))
        by (change k with (fst (k, v')); now apply in_map).
      rewrite Hloop in Hkeys. apply keys_of_pairs_loop in Hkeys.
      destruct Hkeys as [[] | Hkeys]. exact Hkeys. }
    simpl. rewrite Hout.
    rewrite (normalize_loop_pairs (wrap_files dir fs) (wrap_files dir fs));
      [| now apply wrap_files_NoDup | apply incl_refl].
    rewrite (wrap_files_rekeyed dir fs Hdir).
    now rewrite of_pairs_loop_distinct. }
  split; [exact Hwrapped |]. unfold read. now rewrite Hwrapped, Hue.
Qed.

Lemma wrapped_archive_reads_alike_witness :
  read Sample.fromstring Sample.html2text
       (map (wrap_member "book") Sample.stream)
  = read Sample.fromstring Sample.html2text Sample.stream.
Proof.
  apply (wrapped_archive_reads_alike
           Sample.fromstring Sample.html2text "book" Sample.stream
           {| rootfiles := ["OEBPS/content.opf"];
              files := Sample.plain_files |}
           "OEBPS/content.opf" []).
  - reflexivity.
  - reflexivity.
  - repeat constructor; intros filepath H; vm_compute in H;
      inversion H; subst; discriminate.
  - reflexivity.
  - reflexivity.
  - vm_compute. auto.
  - intros path Hin. vm_compute in Hin.
    repeat (destruct Hin as [Hin | Hin]; [subst path; discriminate |]).
    contradiction.
Defined.

(** ** Several containers *)

Lemma uncompress_step_container fromstring (fs : PyDict.dict (list byte))
      (rs : list string) (e : entry) (payload : list byte) :
  container_payload e = Some payload ->
  uncompress_step fromstring (fs, rs) e
  = (rs' <- extract_root_path fromstring payload ;; Ok (fs, rs')).
Proof.
  unfold container_payload, uncompress_step, is_textfile.
  destruct (decode (file_path e)) as [filepath | x]; [| discriminate].
  simpl.
  destruct (String.eqb (PyPath.basename filepath) "container.xml");
    [| discriminate].
  intros H. now rewrite H.
Qed.

Lemma uncompress_loop_keeps_rootfiles fromstring (stream : list entry)
      (fs : PyDict.dict (list byte)) (rs : list string) :
  Forall (fun e => container_payload e = None
                   /\ is_ok (decode (file_path e)) = true) stream ->
  exists fs', uncompress_loop fromstring stream (fs, rs) = Ok (fs', rs).
Proof.
  intros Hall. revert fs.
  induction Hall as [| e rest [Hnone Hpath] _ IH]; intros fs.
  - exists fs. reflexivity.
  - assert (Hstep : exists fs1,
               uncompress_step fromstring (fs, rs) e = Ok (fs1, rs)).
    { unfold container_payload, is_textfile in Hnone.
      unfold uncompress_step.
      destruct (decode (file_path e)) as [filepath | x]; [| discriminate].
      simpl.
      destruct (String.eqb (PyPath.basename filepath) "container.xml").
      - rewrite Hnone. now exists fs.
      - destruct (read_unzipped_chunks (unzipped_chunks e)
                    (in_content_filetypes (PyPath.suffix filepath)));
          eexists; reflexivity. }
    destruct Hstep as [fs1 Hstep]. destruct (IH fs1) as [fs' Hloop].
    exists fs'.
    change (uncompress_loop fromstring (e :: rest) (fs, rs))
      with (st' <- uncompress_step fromstring (fs, rs) e ;;
            uncompress_loop fromstring rest st').
    rewrite Hstep. exact Hloop.
Qed.

(** X18. Of several [container.xml] members the last one whose bytes are
    kept decides, whatever the earlier ones declared: when nothing
    raises before it and the members after it have decodable paths, the
    archive is malformed if that container declares no rootfile, the
    exception of parsing that container is the exception of
    [uncompress_epub], and otherwise the rootfiles returned are the ones
    it declares. *)
Theorem last_container_decides fromstring (before after : list entry)
        (container : entry) (payload : list byte) :
  is_ok (uncompress_loop fromstring before ([], [])) = true ->
  container_payload container = Some payload ->
  Forall (fun e => container_payload e = None
                   /\ is_ok (decode (file_path e)) = true) after ->
  (extract_root_path fromstring payload = Ok [] ->
   uncompress_epub fromstring (before ++ container :: after)
   = Raise (MalformedEpubException no_rootfile_msg))
  /\ (forall x,
         extract_root_path fromstring payload = Raise x ->
         uncompress_epub fromstring (before ++ container :: after) = Raise x)
  /\ (forall declared,
         extract_root_path fromstring payload = Ok declared ->
         declared <> [] ->
         exists uncompressed_epub,
           uncompress_epub fromstring (before ++ container :: after)
           = Ok uncompressed_epub
           /\ rootfiles uncompressed_epub = declared).
Proof.
  intros Hbefore Hpayload Hafter.
  destruct (uncompress_loop fromstring before ([], [])) as [[fs rs] |] eqn:Hb;
    [| discriminate].
  assert (Hloop : uncompress_loop fromstring (before ++ container :: after)
                                  ([], [])
                  = (rs' <- extract_root_path fromstring payload ;;
                     uncompress_loop fromstring after (fs, rs'))).
  { rewrite uncompress_loop_app, Hb. cbn [bind].
    change (uncompress_loop fromstring (container :: after) (fs, rs))
      with (st' <- uncompress_step fromstring (fs, rs) container ;;
            uncompress_loop fromstring after st').
    rewrite (uncompress_step_container _ _ _ _ _ Hpayload).
    now destruct (extract_root_path fromstring payload). }
  unfold uncompress_epub. rewrite Hloop. split; [| split].
  - intros Hnone. rewrite Hnone. cbn [bind].
    destruct (uncompress_loop_keeps_rootfiles fromstring after fs [] Hafter)
      as [fs' Hfs']. now rewrite Hfs'.
  - intros x Hx. now rewrite Hx.
  - intros declared Hdeclared Hne. rewrite Hdeclared. cbn [bind].
    destruct (uncompress_loop_keeps_rootfiles fromstring after fs declared
                                              Hafter) as [fs' Hfs'].
    rewrite Hfs'. cbn [bind].
    destruct declared as [| first rest]; [congruence |].
    assert (Hnd : NoDup (PyDict.keys fs')).
    { apply uncompress_loop_files in Hfs'. apply uncompress_loop_files in Hb.
      rewrite Hfs', Hb. apply of_pairs_loop_NoDup, of_pairs_loop_NoDup.
      constructor. }
    destruct (normalize_path_total first rest fs' Hnd) as [normalized [Hn _]].
    simpl Nat.eqb. cbv iota. rewrite Hn. cbn [bind].
    eexists. split; reflexivity.
Qed.

Lemma last_container_decides_witness :
  uncompress_epub Sample.fromstring
    [Sample.member "META-INF/container.xml" [Sample.container_xml];
     Sample.member "OEBPS/content.opf" [Sample.opf_xml];
     Sample.member "backup/container.xml" ["<container/>"];
     Sample.member "OEBPS/toc.xhtml" [Sample.toc_xhtml]]
  = Raise AttributeError.
Proof.
  assert (Hafter : Forall (fun e => container_payload e = None
                                    /\ is_ok (decode (file_path e)) = true)
                          [Sample.member "OEBPS/toc.xhtml" [Sample.toc_xhtml]])
    by (repeat constructor).
  apply (proj1 (proj2
           (last_container_decides Sample.fromstring
              [Sample.member "META-INF/container.xml" [Sample.container_xml];
               Sample.member "OEBPS/content.opf" [Sample.opf_xml]]
              [Sample.member "OEBPS/toc.xhtml" [Sample.toc_xhtml]]
              (Sample.member "backup/container.xml" ["<container/>"])
              (encode "<container/>") eq_refl eq_refl Hafter))).
  reflexivity.
Defined.
